(** * sgpt: the command-line entry point [main] of [sgpt/app.py]

    A shallow embedding of [main] as a program in a small state and
    exception monad.  Every call that leaves [main] (standard input, the
    terminal prompt, the handlers, the role store, the clipboard, the shell)
    is recorded in a trace, so that statements such as "no handler is called
    before the usage error" are statements about a list of calls. *)

From stdpp Require Import gmap strings list.
From Stdlib Require Import Ascii ZArith QArith_base Lia.

Local Open Scope Z_scope.
Local Open Scope stdpp_scope.

(** ** Python values *)

(** The newline character of the f-string on line 148. *)
Definition nl : string := String (ascii_of_nat 10) EmptyString.

(** Truth value of a [str]: the empty string is false. *)
Definition truthy_str (s : string) : bool := negb (String.eqb s "").

(** Truth value of an [Optional[str]]: [None] and the empty string are false. *)
Definition truthy (o : option string) : bool :=
  match o with
  | Some s => truthy_str s
  | None => false
  end.

(** [o or d] for an [Optional[str]] [o]. *)
Definition py_or (o : option string) (d : string) : string :=
  match o with
  | Some s => if truthy_str s then s else d
  | None => d
  end.

(** [x in s] for two strings: [x] occurs in [s] as a substring.  This is
    what [option in ("c")] computes, since [("c")] is the string ["c"] and
    not a one-element tuple. *)
Fixpoint py_in_str (x s : string) : bool :=
  String.prefix x s ||
  match s with
  | EmptyString => false
  | String _ s' => py_in_str x s'
  end.

(** [x in t] for a tuple of strings [t]. *)
Definition py_in_tuple (x : string) (t : list string) : bool :=
  existsb (String.eqb x) t.

(** [sum] of a tuple of [bool]s. *)
Definition py_sum (bs : list bool) : Z :=
  fold_left (fun acc (b : bool) => acc + Z.b2z b) bs 0.

(** [str.casefold] on the ASCII range: capital letters are lowered. *)
Definition casefold_ascii (c : ascii) : ascii :=
  let n := nat_of_ascii c in
  if (Nat.leb 65 n && Nat.leb n 90)%bool then ascii_of_nat (n + 32) else c.

Fixpoint casefold (s : string) : string :=
  match s with
  | EmptyString => EmptyString
  | String c s' => String (casefold_ascii c) (casefold s')
  end.

(** ** Data of the program *)

(** Modelled from the spec: the expected output shapes of a role
    definition (section 3); [sgpt.role] is outside [sgpt/app.py]. *)
Inductive Shape := PlainText | ShellCommand | CodeOnly | Description.

(** Modelled from the spec: the type [SystemRole] of [sgpt.role], which
    [sgpt/app.py] only imports.  Section 3 gives a role definition as a
    name, a system-prompt text and an expected output shape. *)
Record SystemRole := mkRole {
  role_name : string;
  role_text : string;
  role_shape : Shape
}.

(** The parameters of [main] that its body reads.  The options served by a
    typer callback ([list_chats], [create_role], [show_role], [list_roles],
    [install_integration]) never occur in the body.  [temperature] and
    [top_probability] are only passed on; a rational stands for the float. *)
Record Args := mkArgs {
  prompt : option string;
  model : string;
  temperature : Q;
  top_probability : Q;
  shell : bool;
  describe_shell : bool;
  code : bool;
  editor : bool;
  cache : bool;
  chat_id : string;
  repl : bool;
  print_chat : bool;
  delete_chat : bool;
  role : option string
}.

(** Keyword arguments of the three [handle] calls. *)
Record Kwargs := mkKwargs {
  kw_model : string;
  kw_temperature : Q;
  kw_top_probability : Q;
  kw_chat_id : option string;
  kw_caching : bool
}.

(** Exceptions that [main] raises or lets through. *)
Inductive Exn :=
| BadArgumentUsage (message : string)
| MissingParameter (param_hint param_type : string)
| SystemExit
| Abort
| UnboundLocalError (variable : string)
| Error (kind : string).

(** What a call to a collaborator does: it returns or it raises. *)
Inductive Ext (A : Type) :=
| Returns (a : A)
| Raises (e : Exn).
Arguments Returns {A} a.
Arguments Raises {A} e.

(** What a run of the model does.  [OutOfFuel] only exists because the
    [while] loop is unrolled a bounded number of times; [main_fuel] below
    shows that [main] never ends there. *)
Inductive Res (A : Type) :=
| Ret (a : A)
| Raise (e : Exn)
| OutOfFuel.
Arguments Ret {A} a.
Arguments Raise {A} e.
Arguments OutOfFuel {A}.

(** Every call that leaves [main], with its arguments, in source order. *)
Inductive Call :=
| sys_stdin_read
| call_get_edited_prompt
| call_check_get (shell describe_shell code : bool)
| call_SystemRole_get (role : string)
| call_ReplHandler (chat_id : string) (role : SystemRole)
| call_ReplHandler_handle (prompt : option string) (kw : Kwargs)
| call_show_messages_callback (chat_id : string)
| call_ChatHandler (chat_id : string) (role : SystemRole)
| call_delete_chat (chat_id : string)
| call_ChatHandler_handle (prompt : string) (kw : Kwargs)
| call_typer_prompt (text : string) (choices : list string) (default : string)
| call_cfg_get (key : string)
| call_copy_to_clipboard (text : string)
| call_print (text : string)
| call_run_command (command : string)
| call_DESCRIBE_SHELL_get_role
| call_DefaultHandler (role : SystemRole)
| call_DefaultHandler_handle (prompt : string) (kw : Kwargs).

(** Calls that submit a completion request. *)
Definition is_completion_call (c : Call) : bool :=
  match c with
  | call_ReplHandler_handle _ _
  | call_ChatHandler_handle _ _
  | call_DefaultHandler_handle _ _ => true
  | _ => false
  end.

(** Calls that resolve a role. *)
Definition is_role_call (c : Call) : bool :=
  match c with
  | call_check_get _ _ _
  | call_SystemRole_get _
  | call_DESCRIBE_SHELL_get_role => true
  | _ => false
  end.

(** Calls to [typer.prompt]. *)
Definition is_prompt_call (c : Call) : bool :=
  match c with
  | call_typer_prompt _ _ _ => true
  | _ => false
  end.

(** Standard input: whether it is a terminal, and the text not read yet,
    as its segments between newline characters (["a\nb"] is [["a"; "b"]],
    ["a\n"] is [["a"; ""]]). *)
Record Stdin := mkStdin {
  isatty : bool;
  pending : list string
}.

(** [sys.stdin.read()]: all the text not read yet. *)
Definition stdin_text (i : Stdin) : string := String.concat nl (pending i).

(** ** click's prompt with a [Choice] type *)

(** [Choice.convert] with [case_sensitive=False]: the choices are indexed by
    their casefolded form (a later choice replaces an earlier one with the
    same key) and the casefolded value is looked up. *)
Definition Choice_convert (choices : list string) (value : string)
  : option string :=
  find (fun c => String.eqb (casefold c) (casefold value)) (rev choices).

(** The loop of [click.prompt]: [input()] reads one line; an empty line
    stands for the default; a value that does not convert is reported and
    asked again; the end of the input raises [Abort].  The result is the
    accepted choice, if any, and the input left. *)
Fixpoint click_prompt (choices : list string) (default : string)
  (segs : list string) : option string * list string :=
  match segs with
  | [] => (None, [])
  | l :: rest =>
    match rest, l with
    | [], EmptyString => (None, [])
    | _, _ =>
      let value := if truthy_str l then l else default in
      match Choice_convert choices value with
      | Some c => (Some c, rest)
      | None => click_prompt choices default rest
      end
    end
  end.

(** ** The collaborators of [main]

    [sgpt.config], [sgpt.role], [sgpt.handlers] and [sgpt.utils] are only
    imported by [sgpt/app.py].  [main] is embedded over an arbitrary world
    [W] on which they act; each may return or raise.  A handler object is
    identified with the arguments of its constructor.

    [sys_stdin_read_error] belongs to the interpreter rather than to
    [sgpt]: [sys.stdin.read()] decodes what is left on standard input, and
    raises when it does not decode in the encoding of the environment
    ([UnicodeDecodeError]); the field gives that exception, if any. *)
Class Collaborators (W : Type) := {
  sys_stdin_read_error : string -> option Exn;
  cfg_get : string -> W -> Ext string * W;
  get_edited_prompt : W -> Ext string * W;
  DefaultRoles_check_get : bool -> bool -> bool -> W -> Ext SystemRole * W;
  SystemRole_get : string -> W -> Ext SystemRole * W;
  DESCRIBE_SHELL_get_role : W -> Ext SystemRole * W;
  ReplHandler_init : string -> SystemRole -> W -> Ext unit * W;
  ReplHandler_handle :
    string -> SystemRole -> option string -> Kwargs -> W -> Ext unit * W;
  ChatHandler_show_messages_callback : string -> W -> Ext unit * W;
  ChatHandler_init : string -> SystemRole -> W -> Ext unit * W;
  ChatHandler_delete_chat : string -> SystemRole -> string -> W -> Ext unit * W;
  ChatHandler_handle :
    string -> SystemRole -> string -> Kwargs -> W -> Ext string * W;
  DefaultHandler_init : SystemRole -> W -> Ext unit * W;
  DefaultHandler_handle : SystemRole -> string -> Kwargs -> W -> Ext string * W;
  run_command : string -> W -> Ext unit * W;
  copy_to_clipboard : string -> W -> Ext unit * W
}.

(** ** The monad of [main] *)

(** The state of a run: standard input and the collaborators' world. *)
Record State (W : Type) := mkState {
  stdin : Stdin;
  world : W
}.
Arguments mkState {W} stdin world.
Arguments stdin {W} s.
Arguments world {W} s.

(** A finished run: its result, the state it leaves and the calls it made. *)
Record Out (W A : Type) := mkOut {
  out_res : Res A;
  out_st : State W;
  out_trace : list Call
}.
Arguments mkOut {W A} out_res out_st out_trace.
Arguments out_res {W A} o.
Arguments out_st {W A} o.
Arguments out_trace {W A} o.

Definition M (W A : Type) : Type := State W -> Out W A.

Definition ret {W A} (a : A) : M W A := fun st => mkOut (Ret a) st [].

Definition raise {W A} (e : Exn) : M W A := fun st => mkOut (Raise e) st [].

Definition out_of_fuel {W A} : M W A := fun st => mkOut OutOfFuel st [].

Definition bind {W A B} (m : M W A) (k : A -> M W B) : M W B := fun st =>
  let o := m st in
  match out_res o with
  | Ret a =>
    let o' := k a (out_st o) in
    mkOut (out_res o') (out_st o') (out_trace o ++ out_trace o')
  | Raise e => mkOut (Raise e) (out_st o) (out_trace o)
  | OutOfFuel => mkOut OutOfFuel (out_st o) (out_trace o)
  end.

Declare Scope prog_scope.
Delimit Scope prog_scope with prog.
Notation "x <- m ;; k" := (bind m (fun x => k))
  (at level 100, m at next level, right associativity) : prog_scope.
Notation "m ;; k" := (bind m (fun _ => k))
  (at level 100, right associativity) : prog_scope.

(** A call to a collaborator: logged, and its effect applied to the world. *)
Definition call {W A} (c : Call) (f : W -> Ext A * W) : M W A := fun st =>
  let '(r, w) := f (world st) in
  mkOut (match r with Returns a => Ret a | Raises e => Raise e end)
        (mkState (stdin st) w) [c].

(** Reading a local variable that may not have been assigned. *)
Definition read_local {W} (name : string) (v : option string) : M W string :=
  match v with
  | Some s => ret s
  | None => raise (UnboundLocalError name)
  end.

(** [sys.stdin.isatty()]. *)
Definition sys_stdin_isatty {W} : M W bool := fun st =>
  mkOut (Ret (isatty (stdin st))) st [].

(** [sys.stdin.read()]: everything left on standard input is consumed; the
    call returns that text, or raises when it does not decode. *)
Definition sys_stdin_read_all {W} `{Collaborators W} : M W string := fun st =>
  mkOut (match sys_stdin_read_error (stdin_text (stdin st)) with
         | None => Ret (stdin_text (stdin st))
         | Some e => Raise e
         end)
        (mkState (mkStdin (isatty (stdin st)) []) (world st))
        [sys_stdin_read].

(** [typer.prompt(text=..., type=Choice(choices, case_sensitive=False),
    default=...)], reading from standard input. *)
Definition typer_prompt {W} (text : string) (choices : list string)
  (default : string) : M W string := fun st =>
  let '(r, rest) := click_prompt choices default (pending (stdin st)) in
  mkOut (match r with Some c => Ret c | None => Raise Abort end)
        (mkState (mkStdin (isatty (stdin st)) rest) (world st))
        [call_typer_prompt text choices default].

(** [print(text)]. *)
Definition print {W} (text : string) : M W unit := fun st =>
  mkOut (Ret tt) st [call_print text].

(** [exit()]. *)
Definition exit {W A} : M W A := raise SystemExit.

(** How an iteration of the [while] loop ends. *)
Inductive Loop := Continue | Break.

(** ** [main], block by block *)

Section Main.
Context {W : Type} `{Collaborators W}.
Local Open Scope prog_scope.

(** Lines 145-148: [stdin_passed] and the prompt with piped input folded in. *)
Definition fold_stdin (a : Args) : M W (bool * option string) :=
  tty <- sys_stdin_isatty ;;
  let stdin_passed := negb tty in
  if (stdin_passed && negb (repl a))%bool then
    text <- sys_stdin_read_all ;;
    ret (stdin_passed, Some (text +:+ nl +:+ nl +:+ py_or (prompt a) ""))
  else ret (stdin_passed, prompt a).

(** Lines 151-157: the two usage checks. *)
Definition check_usage (a : Args) (stdin_passed : bool) : M W unit :=
  (if 1 <? py_sum [shell a; describe_shell a; code a] then
     raise (BadArgumentUsage
       "Only one of --shell, --describe-shell, and --code options can be used at a time.")
   else ret tt) ;;
  if (editor a && stdin_passed)%bool then
    raise (BadArgumentUsage "--editor option cannot be used with stdin input.")
  else ret tt.

(** Lines 159-160. *)
Definition edit_prompt (a : Args) (p : option string) : M W (option string) :=
  if editor a then
    text <- call call_get_edited_prompt get_edited_prompt ;;
    ret (Some text)
  else ret p.

(** Lines 162-166: the conditional expression bound to [role_class]. *)
Definition role_class (a : Args) : M W SystemRole :=
  if negb (truthy (role a)) then
    call (call_check_get (shell a) (describe_shell a) (code a))
         (DefaultRoles_check_get (shell a) (describe_shell a) (code a))
  else
    let name := py_or (role a) "" in
    call (call_SystemRole_get name) (SystemRole_get name).

Definition kwargs (a : Args) (cid : option string) : Kwargs :=
  mkKwargs (model a) (temperature a) (top_probability a) cid (cache a).

(** Lines 168-177. *)
Definition repl_block (a : Args) (rc : SystemRole) (p : option string)
  : M W unit :=
  if repl a then
    call (call_ReplHandler (chat_id a) rc) (ReplHandler_init (chat_id a) rc) ;;
    call (call_ReplHandler_handle p (kwargs a (Some (chat_id a))))
         (ReplHandler_handle (chat_id a) rc p (kwargs a (Some (chat_id a))))
  else ret tt.

(** Lines 179-181. *)
Definition print_chat_block (a : Args) : M W unit :=
  if print_chat a then
    call (call_show_messages_callback (chat_id a))
         (ChatHandler_show_messages_callback (chat_id a)) ;;
    exit
  else ret tt.

(** Lines 183-185. *)
Definition delete_chat_block (a : Args) (rc : SystemRole) : M W unit :=
  if delete_chat a then
    call (call_ChatHandler (chat_id a) rc) (ChatHandler_init (chat_id a) rc) ;;
    call (call_delete_chat (chat_id a))
         (ChatHandler_delete_chat (chat_id a) rc (chat_id a)) ;;
    exit
  else ret tt.

(** Lines 187-197: the value of the local [full_completion] afterwards,
    [None] when the branch was not taken and it stays unassigned. *)
Definition chat_block (a : Args) (rc : SystemRole) (p : option string)
  : M W (option string) :=
  if truthy_str (chat_id a) then
    if negb (truthy p) then raise (MissingParameter "PROMPT" "string")
    else
      call (call_ChatHandler (chat_id a) rc) (ChatHandler_init (chat_id a) rc) ;;
      let text := py_or p "" in
      full_completion <-
        call (call_ChatHandler_handle text (kwargs a (Some (chat_id a))))
             (ChatHandler_handle (chat_id a) rc text
                (kwargs a (Some (chat_id a)))) ;;
      ret (Some full_completion)
  else ret None.

(** Lines 208-210, shared with lines 223-225. *)
Definition copy_action (full_completion : option string) : M W unit :=
  text <- read_local "full_completion" full_completion ;;
  call (call_copy_to_clipboard text) (copy_to_clipboard text) ;;
  print "Command copied to clipboard!".

(** Lines 200-210. *)
Definition code_block (a : Args) (full_completion : option string)
  : M W unit :=
  if code a then
    option <- typer_prompt "[C]opy, [A]bort" ["c"; "a"] "a" ;;
    if py_in_str option "c" then copy_action full_completion else ret tt
  else ret tt.

(** Lines 220-235: the body of the loop once [option] is known. *)
Definition shell_body (a : Args) (full_completion : option string)
  (option : string) : M W Loop :=
  (if py_in_tuple option ["e"; "y"] then
     text <- read_local "full_completion" full_completion ;;
     call (call_run_command text) (run_command text)
   else ret tt) ;;
  if py_in_str option "c" then
    copy_action full_completion ;;
    ret Break
  else if String.eqb option "d" then
    rc <- call call_DESCRIBE_SHELL_get_role DESCRIBE_SHELL_get_role ;;
    call (call_DefaultHandler rc) (DefaultHandler_init rc) ;;
    text <- read_local "full_completion" full_completion ;;
    call (call_DefaultHandler_handle text (kwargs a None))
         (DefaultHandler_handle rc text (kwargs a None)) ;;
    ret Continue
  else ret Break.

(** Lines 213-219: the prompt of one iteration. *)
Definition shell_prompt : M W string :=
  v <- call (call_cfg_get "DEFAULT_EXECUTE_SHELL_CMD")
            (cfg_get "DEFAULT_EXECUTE_SHELL_CMD") ;;
  typer_prompt "[E]xecute, [C]opy, [D]escribe, [A]bort"
    ["e"; "d"; "a"; "y"; "c"]
    (if String.eqb v "true" then "e" else "a").

(** Lines 212-235, unrolled at most [fuel] times. *)
Fixpoint while_shell (fuel : nat) (a : Args) (stdin_passed : bool)
  (full_completion : option string) : M W unit :=
  if (shell a && negb stdin_passed)%bool then
    match fuel with
    | O => out_of_fuel
    | S fuel' =>
      option <- shell_prompt ;;
      l <- shell_body a full_completion option ;;
      match l with
      | Continue => while_shell fuel' a stdin_passed full_completion
      | Break => ret tt
      end
    end
  else ret tt.

(** The loop with as much fuel as it can use: every iteration that is
    followed by another one has taken a line from standard input. *)
Definition shell_block (a : Args) (stdin_passed : bool)
  (full_completion : option string) : M W unit := fun st =>
  while_shell (S (length (pending (stdin st)))) a stdin_passed
    full_completion st.

(** Lines 159-235: what [main] does once both usage checks have passed. *)
Definition after_usage (a : Args) (stdin_passed : bool) (p : option string)
  : M W unit :=
  p <- edit_prompt a p ;;
  rc <- role_class a ;;
  repl_block a rc p ;;
  print_chat_block a ;;
  delete_chat_block a rc ;;
  full_completion <- chat_block a rc p ;;
  code_block a full_completion ;;
  shell_block a stdin_passed full_completion.

(** The body of [main], lines 145-235. *)
Definition main (a : Args) : M W unit :=
  sp <- fold_stdin a ;;
  let stdin_passed := fst sp in
  let p := snd sp in
  check_usage a stdin_passed ;;
  after_usage a stdin_passed p.

End Main.

(** [entry_point]: [typer.run(main)] turns the end of [main] into the exit
    status of the process.  click reports a usage error with status 2 and
    [Abort] with status 1; [exit()] and a normal return give 0; any other
    exception ends the interpreter with status 1. *)
Definition exit_status (r : Res unit) : option Z :=
  match r with
  | Ret _ => Some 0
  | Raise (BadArgumentUsage _) => Some 2
  | Raise (MissingParameter _ _) => Some 2
  | Raise SystemExit => Some 0
  | Raise Abort => Some 1
  | Raise (UnboundLocalError _) => Some 1
  | Raise (Error _) => Some 1
  | OutOfFuel => None
  end.

Definition entry_point {W} `{Collaborators W} (a : Args) (st : State W)
  : option Z :=
  exit_status (out_res (main a st)).

(** ** The collaborators as the specification describes them

    The handlers, the role store and the session store lie outside
    [sgpt/app.py]; this section gives them the behaviour that sections 3
    and 4 of the specification state, over a concrete world. *)

(** Modelled from the spec: the role of a message (section 3). *)
Inductive Speaker := system | user | assistant.

(** Modelled from the spec: a message of a conversation (section 3). *)
Record Message := mkMessage {
  speaker : Speaker;
  content : string
}.

(** Modelled from the spec: what the collaborators of [main] own
    (section 6): the configuration, the text typed in the editor, the
    stored roles, the session store, the remote completion capability
    ([None] when it is unreachable or rejects the request), the clipboard
    and the commands given to the shell.  [loaded] notes, in order, every
    transcript the dispatcher has loaded. *)
Record World := mkWorld {
  config : gmap string string;
  editor_text : string;
  roles : gmap string SystemRole;
  sessions : gmap string (list Message);
  remote : list Message -> string -> Q -> Q -> option string;
  loaded : list (string * list Message);
  clipboard : option string;
  executed : list string
}.

(** Field updates of [World]. *)
Definition set_sessions (s : gmap string (list Message)) (w : World) : World :=
  mkWorld (config w) (editor_text w) (roles w) s (remote w) (loaded w)
    (clipboard w) (executed w).

Definition log_loaded (cid : string) (t : list Message) (w : World) : World :=
  mkWorld (config w) (editor_text w) (roles w) (sessions w) (remote w)
    (loaded w ++ [(cid, t)]) (clipboard w) (executed w).

Definition set_clipboard (text : string) (w : World) : World :=
  mkWorld (config w) (editor_text w) (roles w) (sessions w) (remote w)
    (loaded w) (Some text) (executed w).

Definition log_executed (text : string) (w : World) : World :=
  mkWorld (config w) (editor_text w) (roles w) (sessions w) (remote w)
    (loaded w) (clipboard w) (executed w ++ [text]).

(** Modelled from the spec: the built-in roles of [sgpt.role] (section 3:
    default assistant, shell-command generator, shell-command describer,
    code-only generator).  The source names the enumeration [DefaultRoles]
    and its member [DESCRIBE_SHELL]; the reserved names and the prompt texts
    are placeholders, the specification fixes neither. *)
Inductive DefaultRoles := DEFAULT | SHELL | DESCRIBE_SHELL | CODE.

(** Modelled from the spec: [DefaultRoles.get_role] of [sgpt.role], the
    role definition of a built-in variant, with its expected output shape
    (section 3). *)
Definition get_role (r : DefaultRoles) : SystemRole :=
  match r with
  | DEFAULT => mkRole "default" "default assistant" PlainText
  | SHELL => mkRole "shell" "shell-command generator" ShellCommand
  | DESCRIBE_SHELL => mkRole "describe_shell" "shell-command describer" Description
  | CODE => mkRole "code" "code-only generator" CodeOnly
  end.

(** Modelled from the spec: built-ins are always resolvable by their
    reserved names (section 6). *)
Definition builtin_role (name : string) : option SystemRole :=
  find (fun r => String.eqb (role_name r) name)
       (map get_role [DEFAULT; SHELL; DESCRIBE_SHELL; CODE]).

(** Modelled from the spec: [SystemRole.get] of [sgpt.role] (section 4.2:
    an explicit role is looked up by name and the lookup fails with
    [UnknownRoleError] if the name is absent; section 6: built-ins are
    always resolvable by their reserved names). *)
Definition sim_SystemRole_get (name : string) (w : World)
  : Ext SystemRole * World :=
  match builtin_role name with
  | Some r => (Returns r, w)
  | None =>
    match roles w !! name with
    | Some r => (Returns r, w)
    | None => (Raises (Error "UnknownRoleError"), w)
    end
  end.

(** Modelled from the spec: the built-in variant that the mode flags
    select (section 4.2: derived from the flags, the default assistant role
    if none is set). *)
Definition flag_role (shell describe_shell code : bool) : DefaultRoles :=
  if shell then SHELL
  else if describe_shell then DESCRIBE_SHELL
  else if code then CODE
  else DEFAULT.

(** Modelled from the spec: [DefaultRoles.check_get] of [sgpt.role]
    (section 4.2: fails with [ConflictingModesError] if more than one flag
    is set, otherwise the role is derived from the flags). *)
Definition sim_check_get (shell describe_shell code : bool) (w : World)
  : Ext SystemRole * World :=
  if 1 <? py_sum [shell; describe_shell; code]
  then (Raises (Error "ConflictingModesError"), w)
  else (Returns (get_role (flag_role shell describe_shell code)), w).

(** Modelled from the spec: [read] of the Session Store of
    [sgpt.handlers] (section 4.3: the empty sequence, not an error, if the
    conversation does not exist). *)
Definition store_read (cid : string) (w : World) : list Message :=
  default [] (sessions w !! cid).

(** Modelled from the spec: [append] of the Session Store (sections 3 and
    4.3: a conversation is created on its first append, the order of the
    messages is kept). *)
Definition store_append (cid : string) (m : Message) (w : World) : World :=
  set_sessions (<[cid := store_read cid w ++ [m]]> (sessions w)) w.

(** Modelled from the spec: [delete] of the Session Store (section 4.3:
    idempotent, no error if the conversation is absent). *)
Definition store_delete (cid : string) (w : World) : World :=
  set_sessions (delete cid (sessions w)) w.

(** A message of the [system] role. *)
Definition is_system (m : Message) : bool :=
  match speaker m with
  | system => true
  | _ => false
  end.

(** Modelled from the spec: the Completion Dispatcher of [sgpt.handlers]
    (section 4.4, steps 1, 2, 4, 5 and 6).  The transcript loaded in step 1
    is noted in [loaded].  The cache of step 3 is left out: a hit only
    spares the remote call.  A failed remote call appends nothing. *)
Definition complete (text cid : string) (rc : SystemRole) (kw : Kwargs)
  (w : World) : Ext string * World :=
  let prior := store_read cid w in
  let w := log_loaded cid prior w in
  let head :=
    if existsb is_system prior then []
    else [mkMessage system (role_text rc)] in
  let outgoing := head ++ prior ++ [mkMessage user text] in
  match remote w outgoing (kw_model kw) (kw_temperature kw)
          (kw_top_probability kw) with
  | None => (Raises (Error "CompletionServiceError"), w)
  | Some result =>
    (Returns result,
     store_append cid (mkMessage assistant result)
       (store_append cid (mkMessage user text) w))
  end.

(** Modelled from the spec: [ChatHandler.handle] of [sgpt.handlers]
    (section 4.3: in an invocation that is neither REPL, print nor delete,
    the scratch conversation ["temp"] is deleted before it is read and
    before anything is appended). *)
Definition sim_ChatHandler_handle (cid : string) (rc : SystemRole)
  (text : string) (kw : Kwargs) (w : World) : Ext string * World :=
  complete text cid rc kw
    (if String.eqb cid "temp" then store_delete "temp" w else w).

(** Modelled from the spec: [DefaultHandler.handle] of [sgpt.handlers]
    (section 4.5: a one-shot completion, outside every conversation). *)
Definition sim_DefaultHandler_handle (rc : SystemRole) (text : string)
  (kw : Kwargs) (w : World) : Ext string * World :=
  match remote w [mkMessage system (role_text rc); mkMessage user text]
          (kw_model kw) (kw_temperature kw) (kw_top_probability kw) with
  | None => (Raises (Error "CompletionServiceError"), w)
  | Some result => (Returns result, w)
  end.

(** Modelled from the spec: [cfg.get] of [sgpt.config]; a configuration
    flag (section 4.5) that is not set reads as the empty string. *)
Definition sim_cfg_get (key : string) (w : World) : Ext string * World :=
  (Returns (default "" (config w !! key)), w).

(** A collaborator that returns and changes nothing. *)
Definition sim_returns (w : World) : Ext unit * World := (Returns tt, w).

(** Modelled from the spec: the collaborators of [main] together.  The
    editor gives the text typed there; building a handler and showing a
    conversation change nothing; deleting a chat is [delete] of the Session
    Store; the clipboard and the shell note what they were given
    (section 4.5).  The REPL loop of section 4.6 is a parameter.  Standard
    input always decodes. *)
Definition sim_collaborators
  (repl_loop :
     string -> SystemRole -> option string -> Kwargs -> World ->
     Ext unit * World)
  : Collaborators World := {|
  sys_stdin_read_error := fun _ => None;
  cfg_get := sim_cfg_get;
  get_edited_prompt := fun w => (Returns (editor_text w), w);
  DefaultRoles_check_get := sim_check_get;
  SystemRole_get := sim_SystemRole_get;
  DESCRIBE_SHELL_get_role := fun w => (Returns (get_role DESCRIBE_SHELL), w);
  ReplHandler_init := fun _ _ => sim_returns;
  ReplHandler_handle := repl_loop;
  ChatHandler_show_messages_callback := fun _ => sim_returns;
  ChatHandler_init := fun _ _ => sim_returns;
  ChatHandler_delete_chat := fun _ _ cid w => (Returns tt, store_delete cid w);
  ChatHandler_handle := sim_ChatHandler_handle;
  DefaultHandler_init := fun _ => sim_returns;
  DefaultHandler_handle := sim_DefaultHandler_handle;
  run_command := fun text w => (Returns tt, log_executed text w);
  copy_to_clipboard := fun text w => (Returns tt, set_clipboard text w)
|}.

(** Modelled from the spec: a REPL session that the user interrupts before
    the first turn (section 4.6: the loop ends only on an interrupt). *)
Definition interrupted_repl (cid : string) (rc : SystemRole)
  (p : option string) (kw : Kwargs) (w : World) : Ext unit * World :=
  (Raises Abort, w).

(** The collaborators used in the sample runs. *)
Definition sim : Collaborators World := sim_collaborators interrupted_repl.

(** Modelled from the spec: the collaborators of [sim], in an environment
    in which reading what is piped ends as [read_error] says. *)
Definition sim_reading (read_error : string -> option Exn)
  : Collaborators World := {|
  sys_stdin_read_error := read_error;
  cfg_get := @cfg_get World sim;
  get_edited_prompt := @get_edited_prompt World sim;
  DefaultRoles_check_get := @DefaultRoles_check_get World sim;
  SystemRole_get := @SystemRole_get World sim;
  DESCRIBE_SHELL_get_role := @DESCRIBE_SHELL_get_role World sim;
  ReplHandler_init := @ReplHandler_init World sim;
  ReplHandler_handle := @ReplHandler_handle World sim;
  ChatHandler_show_messages_callback :=
    @ChatHandler_show_messages_callback World sim;
  ChatHandler_init := @ChatHandler_init World sim;
  ChatHandler_delete_chat := @ChatHandler_delete_chat World sim;
  ChatHandler_handle := @ChatHandler_handle World sim;
  DefaultHandler_init := @DefaultHandler_init World sim;
  DefaultHandler_handle := @DefaultHandler_handle World sim;
  run_command := @run_command World sim;
  copy_to_clipboard := @copy_to_clipboard World sim
|}.

(** An environment in which what is piped does not decode. *)
Definition sim_undecodable : Collaborators World :=
  sim_reading (fun _ => Some (Error "UnicodeDecodeError")).

(** ** Sample runs *)

(** A remote service that answers every request with [ls -la]. *)
Definition echo_remote (ms : list Message) (m : string) (t p : Q)
  : option string := Some "ls -la".

(** A world in which an earlier run has left two messages in ["temp"]. *)
Definition sample_world : World :=
  mkWorld ∅ "" ∅
    {[ "temp" := [mkMessage user "old question"; mkMessage assistant "old answer"] ]}
    echo_remote [] None [].

(** [sgpt] with every option at its default and no prompt. *)
Definition default_args : Args :=
  mkArgs None "gpt-3.5-turbo" (1 # 10) (1 # 1) false false false false true
    "temp" false false false None.

(** The same options with one of them changed. *)
Definition with_prompt (p : string) (a : Args) : Args :=
  mkArgs (Some p) (model a) (temperature a) (top_probability a) (shell a)
    (describe_shell a) (code a) (editor a) (cache a) (chat_id a) (repl a)
    (print_chat a) (delete_chat a) (role a).

Definition with_modes (s d c : bool) (a : Args) : Args :=
  mkArgs (prompt a) (model a) (temperature a) (top_probability a) s d c
    (editor a) (cache a) (chat_id a) (repl a) (print_chat a) (delete_chat a)
    (role a).

Definition with_editor (a : Args) : Args :=
  mkArgs (prompt a) (model a) (temperature a) (top_probability a) (shell a)
    (describe_shell a) (code a) true (cache a) (chat_id a) (repl a)
    (print_chat a) (delete_chat a) (role a).

Definition with_repl (a : Args) : Args :=
  mkArgs (prompt a) (model a) (temperature a) (top_probability a) (shell a)
    (describe_shell a) (code a) (editor a) (cache a) (chat_id a) true
    (print_chat a) (delete_chat a) (role a).

Definition with_role (r : string) (a : Args) : Args :=
  mkArgs (prompt a) (model a) (temperature a) (top_probability a) (shell a)
    (describe_shell a) (code a) (editor a) (cache a) (chat_id a) (repl a)
    (print_chat a) (delete_chat a) (Some r).

(** A terminal on which the user will type the given lines. *)
Definition terminal (lines : list string) : State World :=
  mkState (mkStdin true (lines ++ [""])) sample_world.

(** A pipe that delivers the given text segments. *)
Definition pipe (segs : list string) : State World :=
  mkState (mkStdin false segs) sample_world.

(** ** Vocabulary of the statements *)

(** More than one of [--shell], [--describe-shell] and [--code] is set. *)
Definition conflicting (a : Args) : bool :=
  (shell a && describe_shell a) || (shell a && code a)
  || (describe_shell a && code a).

(** The prompt argument as it was typed, the empty string when absent. *)
Definition cli_prompt (a : Args) : string :=
  match prompt a with
  | Some s => s
  | None => ""
  end.

(** The state once standard input has been read to its end. *)
Definition drained {W} (st : State W) : State W :=
  mkState (mkStdin (isatty (stdin st)) []) (world st).

(** A run that comes after the calls [t]. *)
Definition after {W A} (t : list Call) (o : Out W A) : Out W A :=
  mkOut (out_res o) (out_st o) (t ++ out_trace o).

(** The messages of the two usage errors. *)
Definition conflict_message : string :=
  "Only one of --shell, --describe-shell, and --code options can be used at a time.".

Definition editor_message : string :=
  "--editor option cannot be used with stdin input.".

(** Calls made by the action machines after a completion. *)
Definition is_action_call (c : Call) : bool :=
  match c with
  | call_typer_prompt _ _ _
  | call_cfg_get _
  | call_copy_to_clipboard _
  | call_print _
  | call_run_command _
  | call_DESCRIBE_SHELL_get_role
  | call_DefaultHandler _
  | call_DefaultHandler_handle _ _ => true
  | _ => false
  end.

Definition is_run_command (c : Call) : bool :=
  match c with
  | call_run_command _ => true
  | _ => false
  end.

(** Calls of the code-only machine. *)
Definition is_code_action (c : Call) : bool :=
  match c with
  | call_typer_prompt _ _ _
  | call_copy_to_clipboard _
  | call_print _ => true
  | _ => false
  end.

(** Calls made before a completion is requested on the chat path. *)
Definition is_setup_call (c : Call) : bool :=
  match c with
  | call_get_edited_prompt
  | call_check_get _ _ _
  | call_SystemRole_get _
  | call_ReplHandler _ _
  | call_show_messages_callback _
  | call_ChatHandler _ _
  | call_delete_chat _ => true
  | _ => false
  end.

(** The Describe sub-completion of the shell loop. *)
Definition is_describe_call (c : Call) : bool :=
  match c with
  | call_DESCRIBE_SHELL_get_role
  | call_DefaultHandler _
  | call_DefaultHandler_handle _ _ => true
  | _ => false
  end.

(** The session store and the record of loaded transcripts are as they
    were. *)
Definition store_kept (w w' : World) : Prop :=
  sessions w' = sessions w /\ loaded w' = loaded w.

(** The dispatcher has run once on the scratch conversation: the
    transcript it loaded for ["temp"] was empty, the other conversations
    are as they were, and ["temp"] now holds nothing (the remote call
    failed) or exactly the new exchange. *)
Definition temp_fresh (w w' : World) : Prop :=
  loaded w' = loaded w ++ [("temp", [])] /\
  (forall cid, cid <> "temp" -> sessions w' !! cid = sessions w !! cid) /\
  (store_read "temp" w' = [] \/
   exists text result,
     store_read "temp" w' = [mkMessage user text; mkMessage assistant result]).

(** Line 148 does not raise: standard input is not read there (it is a
    terminal, or the REPL flag is set), or what is piped decodes. *)
Definition read_returns {W} `{Collaborators W} (a : Args) (st : State W)
  : Prop :=
  isatty (stdin st) = true \/ repl a = true \/
  sys_stdin_read_error (stdin_text (stdin st)) = None.

(** How many lines [input()] can still read: every segment but the last
    ends a line, and the last one is a line of its own unless it is empty. *)
Fixpoint lines_left (segs : list string) : nat :=
  match segs with
  | [] => 0
  | l :: rest =>
    match rest, l with
    | [], EmptyString => 0
    | _, _ => S (lines_left rest)
    end
  end.

(** The completion requests to a [ChatHandler]. *)
Definition is_ChatHandler_handle (c : Call) : bool :=
  match c with
  | call_ChatHandler_handle _ _ => true
  | _ => false
  end.

(** The scratch conversation after a run, by whether the dispatcher was
    called: reset when it was, as it was when it was not. *)
Definition reset_iff_handled {A} (w : World) (o : Out World A) : Prop :=
  if existsb is_ChatHandler_handle (out_trace o)
  then temp_fresh w (world (out_st o))
  else store_kept w (world (out_st o)).

(** The same options with another prompt argument. *)
Definition set_prompt (o : option string) (a : Args) : Args :=
  mkArgs o (model a) (temperature a) (top_probability a) (shell a)
    (describe_shell a) (code a) (editor a) (cache a) (chat_id a) (repl a)
    (print_chat a) (delete_chat a) (role a).

(** How many calls of a kind a trace holds. *)
Definition count_calls (f : Call -> bool) (t : list Call) : nat :=
  length (List.filter f t).

(** Calls on a [ChatHandler] object. *)
Definition is_chat_call (c : Call) : bool :=
  match c with
  | call_ChatHandler _ _
  | call_delete_chat _
  | call_ChatHandler_handle _ _ => true
  | _ => false
  end.

(** Calls that are given the text of [full_completion]. *)
Definition uses_completion (c : Call) : bool :=
  match c with
  | call_copy_to_clipboard _
  | call_run_command _
  | call_DefaultHandler_handle _ _ => true
  | _ => false
  end.

(** The call is made on the value [fc] of [full_completion], and a
    description is requested with the options of the command line and no
    chat id. *)
Definition acts_on (a : Args) (fc : option string) (c : Call) : Prop :=
  match c with
  | call_copy_to_clipboard text => fc = Some text
  | call_run_command text => fc = Some text
  | call_DefaultHandler_handle text kw =>
      fc = Some text /\ kw = kwargs a None
  | _ => True
  end.

(** The call carries the options of the command line as they were given. *)
Definition forwards (a : Args) (c : Call) : Prop :=
  match c with
  | call_check_get s d c =>
      s = shell a /\ d = describe_shell a /\ c = code a
  | call_SystemRole_get name => role a = Some name
  | call_ReplHandler cid _
  | call_ChatHandler cid _
  | call_show_messages_callback cid
  | call_delete_chat cid => cid = chat_id a
  | call_ReplHandler_handle _ kw
  | call_ChatHandler_handle _ kw =>
      kw_model kw = model a /\ kw_temperature kw = temperature a /\
      kw_top_probability kw = top_probability a /\
      kw_chat_id kw = Some (chat_id a) /\ kw_caching kw = cache a
  | call_DefaultHandler_handle _ kw =>
      kw_model kw = model a /\ kw_temperature kw = temperature a /\
      kw_top_probability kw = top_probability a /\
      kw_chat_id kw = None /\ kw_caching kw = cache a
  | _ => True
  end.

(** ** Proof steps *)

(** Case analysis on whatever the goal branches on next. *)
Ltac split_on x :=
  lazymatch x with
  | context [match ?y with _ => _ end] => split_on y
  | _ => destruct x eqn:?
  end.

Ltac branch :=
  match goal with
  | |- context [match ?x with _ => _ end] => split_on x
  end.

Ltac run :=
  repeat (cbn -[String.eqb py_in_str py_in_tuple click_prompt Choice_convert];
          try branch).

(** ** The monad and the blocks *)

Section Blocks.
Context {W : Type} `{Collaborators W}.
Local Open Scope prog_scope.

Lemma bind_Ret {A B} (m : M W A) (k : A -> M W B) st x :
  out_res (m st) = Ret x ->
  bind m k st = after (out_trace (m st)) (k x (out_st (m st))).
Proof. intros E. unfold bind, after. rewrite E. reflexivity. Qed.

Lemma bind_Raise {A B} (m : M W A) (k : A -> M W B) st e :
  out_res (m st) = Raise e ->
  bind m k st = mkOut (Raise e) (out_st (m st)) (out_trace (m st)).
Proof. intros E. unfold bind. rewrite E. reflexivity. Qed.

(** A property of every call is kept by sequencing. *)
Lemma bind_Forall {A B} (P : Call -> Prop) (m : M W A) (k : A -> M W B) st :
  Forall P (out_trace (m st)) ->
  (forall x, out_res (m st) = Ret x ->
             Forall P (out_trace (k x (out_st (m st))))) ->
  Forall P (out_trace (bind m k st)).
Proof.
  intros Hm Hk. unfold bind.
  destruct (out_res (m st)) as [x|e|] eqn:E; cbn; auto.
  apply Forall_app; split; auto.
Qed.

Lemma call_Forall {A} (P : Call -> Prop) c (f : W -> Ext A * W) st :
  P c -> Forall P (out_trace (call c f st)).
Proof.
  intros Hc. unfold call. destruct (f (world st)) as [r w].
  cbn. repeat constructor; assumption.
Qed.

Lemma call_stdin {A} c (f : W -> Ext A * W) st :
  stdin (out_st (call c f st)) = stdin st.
Proof. unfold call. destruct (f (world st)) as [r w]. reflexivity. Qed.


(** Lines 145-148 in closed form. *)
Lemma fold_stdin_eq a (st : State W) :
  fold_stdin a st =
  if (negb (isatty (stdin st)) && negb (repl a))%bool then
    @mkOut W _
      (match sys_stdin_read_error (stdin_text (stdin st)) with
       | None =>
           Ret (true,
                Some (stdin_text (stdin st) +:+ nl +:+ nl
                      +:+ py_or (prompt a) ""))
       | Some e => Raise e
       end)
      (drained st) [sys_stdin_read]
  else mkOut (Ret (negb (isatty (stdin st)), prompt a)) st [].
Proof.
  unfold fold_stdin, bind, sys_stdin_isatty, sys_stdin_read_all; cbn.
  destruct (isatty (stdin st)), (repl a); try reflexivity.
  cbn. destruct (sys_stdin_read_error (stdin_text (stdin st))); reflexivity.
Qed.

Lemma fold_stdin_world a (st : State W) :
  world (out_st (fold_stdin a st)) = world st.
Proof.
  rewrite fold_stdin_eq.
  destruct (negb (isatty (stdin st)) && negb (repl a))%bool; reflexivity.
Qed.

(** When line 148 does not raise, lines 145-148 give [stdin_passed] and the
    prompt. *)
Lemma fold_stdin_returns a (st : State W) :
  read_returns a st ->
  out_res (fold_stdin a st) =
  Ret (negb (isatty (stdin st)),
       if (negb (isatty (stdin st)) && negb (repl a))%bool
       then Some (stdin_text (stdin st) +:+ nl +:+ nl +:+ py_or (prompt a) "")
       else prompt a).
Proof.
  intros Hr. rewrite fold_stdin_eq.
  destruct (isatty (stdin st)) eqn:Ht, (repl a) eqn:Hp; try reflexivity.
  destruct Hr as [Hr|[Hr|Hr]]; try congruence.
  cbn. rewrite Hr. reflexivity.
Qed.

(** When it raises, nothing else has happened. *)
Lemma fold_stdin_raises a (st : State W) e :
  out_res (fold_stdin a st) = Raise e ->
  isatty (stdin st) = false /\ repl a = false /\
  sys_stdin_read_error (stdin_text (stdin st)) = Some e.
Proof.
  rewrite fold_stdin_eq.
  destruct (isatty (stdin st)), (repl a); cbn; try discriminate.
  destruct (sys_stdin_read_error (stdin_text (stdin st)));
    [|discriminate].
  intros E. inversion E. auto.
Qed.

Lemma fold_stdin_cases a (st : State W) :
  read_returns a st \/ exists e, out_res (fold_stdin a st) = Raise e.
Proof.
  unfold read_returns. rewrite fold_stdin_eq.
  destruct (isatty (stdin st)), (repl a); cbn; auto.
  destruct (sys_stdin_read_error (stdin_text (stdin st))); eauto.
Qed.

Lemma conflicting_sum a :
  conflicting a = (1 <? py_sum [shell a; describe_shell a; code a]).
Proof.
  unfold conflicting. destruct (shell a), (describe_shell a), (code a);
    reflexivity.
Qed.

(** Line 148 raises: [main] ends there. *)
Lemma main_read_raises a (st : State W) e :
  out_res (fold_stdin a st) = Raise e ->
  main a st =
  mkOut (Raise e) (out_st (fold_stdin a st)) (out_trace (fold_stdin a st)).
Proof. intros He. unfold main. apply bind_Raise. exact He. Qed.

(** Lines 151-154: with conflicting flags [main] ends in the usage error as
    soon as standard input has been looked at. *)
Lemma main_conflict a (st : State W) :
  conflicting a = true -> read_returns a st ->
  main a st =
  mkOut (Raise (BadArgumentUsage conflict_message))
        (out_st (fold_stdin a st)) (out_trace (fold_stdin a st)).
Proof.
  intros Hc Hr. rewrite conflicting_sum in Hc.
  pose proof (fold_stdin_returns a st Hr) as Hp.
  unfold main. rewrite (bind_Ret _ _ _ _ Hp). cbn [fst snd].
  unfold check_usage. rewrite Hc.
  rewrite (bind_Raise _ _ _ (BadArgumentUsage conflict_message)).
  - unfold after. cbn. rewrite app_nil_r. reflexivity.
  - reflexivity.
Qed.

(** Lines 156-157: the editor with piped input, when the flags agree. *)
Lemma main_editor_pipe a (st : State W) :
  conflicting a = false -> editor a = true -> isatty (stdin st) = false ->
  read_returns a st ->
  main a st =
  mkOut (Raise (BadArgumentUsage editor_message))
        (out_st (fold_stdin a st)) (out_trace (fold_stdin a st)).
Proof.
  intros Hc He Ht Hr. rewrite conflicting_sum in Hc.
  pose proof (fold_stdin_returns a st Hr) as Hp. rewrite Ht in Hp.
  unfold main. rewrite (bind_Ret _ _ _ _ Hp). cbn [fst snd negb].
  unfold check_usage. rewrite Hc, He.
  rewrite (bind_Raise _ _ _ (BadArgumentUsage editor_message)).
  - unfold after. cbn. rewrite app_nil_r. reflexivity.
  - reflexivity.
Qed.

(** With conflicting flags, or with the editor on a pipe, [main] ends with
    an exception once standard input has been looked at. *)
Lemma main_early a (st : State W) :
  conflicting a = true \/
  (editor a && negb (isatty (stdin st)))%bool = true ->
  exists e,
    main a st =
    mkOut (Raise e) (out_st (fold_stdin a st)) (out_trace (fold_stdin a st)).
Proof.
  intros Hearly.
  destruct (fold_stdin_cases a st) as [Hr|[e He]];
    [|eexists; apply main_read_raises; exact He].
  destruct (conflicting a) eqn:Hc.
  - eexists. apply main_conflict; auto.
  - destruct Hearly as [Hcc|Hed]; [discriminate|].
    apply andb_true_iff in Hed as [Hed Ht]. apply negb_true_iff in Ht.
    eexists. apply main_editor_pipe; auto.
Qed.

Lemma fold_stdin_trace a (st : State W) :
  out_trace (fold_stdin a st) =
  if (negb (isatty (stdin st)) && negb (repl a))%bool
  then [sys_stdin_read] else [].
Proof.
  rewrite fold_stdin_eq.
  destruct (negb (isatty (stdin st)) && negb (repl a))%bool; reflexivity.
Qed.

End Blocks.

(** ** The prompt and the loop *)

Lemma Choice_convert_In choices value c :
  Choice_convert choices value = Some c -> In c choices.
Proof.
  unfold Choice_convert. intros E.
  apply find_some in E as [E _]. apply in_rev. exact E.
Qed.

(** An accepted answer has taken at least one line from the input. *)
Lemma click_prompt_shorter choices default segs c rest :
  click_prompt choices default segs = (Some c, rest) ->
  (length rest < length segs)%nat.
Proof.
  revert c rest. induction segs as [|l segs IH]; intros c rest E.
  - discriminate.
  - cbn [click_prompt] in E.
    assert (Hstep :
      match Choice_convert choices (if truthy_str l then l else default) with
      | Some c0 => (Some c0, segs)
      | None => click_prompt choices default segs
      end = (Some c, rest) -> (length rest < length (l :: segs))%nat).
    { destruct (Choice_convert choices _); intros E'.
      - inversion E'; subst. cbn. lia.
      - apply IH in E'. cbn. lia. }
    destruct segs as [|l' segs']; destruct l; try discriminate; auto.
Qed.

(** An accepted answer has taken at least one of the lines that [input()]
    could still read. *)
Lemma click_prompt_lines choices default segs c rest :
  click_prompt choices default segs = (Some c, rest) ->
  (lines_left rest < lines_left segs)%nat.
Proof.
  revert c rest. induction segs as [|l segs IH]; intros c rest E.
  - discriminate.
  - cbn [click_prompt] in E.
    assert (Hstep :
      match Choice_convert choices (if truthy_str l then l else default) with
      | Some c0 => (Some c0, segs)
      | None => click_prompt choices default segs
      end = (Some c, rest) -> (lines_left rest < S (lines_left segs))%nat).
    { destruct (Choice_convert choices _); intros E'.
      - inversion E'; subst. lia.
      - apply IH in E'. lia. }
    cbn [lines_left].
    destruct segs as [|l' segs']; destruct l; try discriminate; auto.
Qed.

Lemma click_prompt_In choices default segs c rest :
  click_prompt choices default segs = (Some c, rest) -> In c choices.
Proof.
  revert c rest. induction segs as [|l segs IH]; intros c rest E.
  - discriminate.
  - cbn [click_prompt] in E.
    assert (Hstep :
      match Choice_convert choices (if truthy_str l then l else default) with
      | Some c0 => (Some c0, segs)
      | None => click_prompt choices default segs
      end = (Some c, rest) -> In c choices).
    { destruct (Choice_convert choices _) eqn:Ec; intros E'.
      - inversion E'; subst. eapply Choice_convert_In; eauto.
      - eapply IH; eauto. }
    destruct segs as [|l' segs']; destruct l; try discriminate; auto.
Qed.

Section Loop.
Context {W : Type} `{Collaborators W}.
Local Open Scope prog_scope.

Lemma typer_prompt_shorter text choices default (st : State W) c :
  out_res (typer_prompt text choices default st) = Ret c ->
  (length (pending (stdin (out_st (typer_prompt text choices default st))))
   < length (pending (stdin st)))%nat.
Proof.
  unfold typer_prompt.
  destruct (click_prompt choices default (pending (stdin st)))
    as [[c'|] rest] eqn:E; cbn; intros Hc; [|discriminate].
  eapply click_prompt_shorter; eauto.
Qed.

Lemma typer_prompt_In text choices default (st : State W) c :
  out_res (typer_prompt text choices default st) = Ret c -> In c choices.
Proof.
  unfold typer_prompt.
  destruct (click_prompt choices default (pending (stdin st)))
    as [[c'|] rest] eqn:E; cbn; intros Hc; [|discriminate].
  inversion Hc; subst. eapply click_prompt_In; eauto.
Qed.

Lemma typer_prompt_world text choices default (st : State W) :
  world (out_st (typer_prompt text choices default st)) = world st.
Proof.
  unfold typer_prompt.
  destruct (click_prompt choices default (pending (stdin st))); reflexivity.
Qed.

Lemma typer_prompt_trace text choices default (st : State W) :
  out_trace (typer_prompt text choices default st)
  = [call_typer_prompt text choices default].
Proof.
  unfold typer_prompt.
  destruct (click_prompt choices default (pending (stdin st))); reflexivity.
Qed.

Lemma shell_prompt_shorter (st : State W) c :
  out_res (shell_prompt st) = Ret c ->
  (length (pending (stdin (out_st (shell_prompt st))))
   < length (pending (stdin st)))%nat.
Proof.
  unfold shell_prompt, bind.
  pose proof (call_stdin (call_cfg_get "DEFAULT_EXECUTE_SHELL_CMD")
                (cfg_get "DEFAULT_EXECUTE_SHELL_CMD") st) as Hs.
  destruct (out_res (call _ _ st)) as [v|e|]; cbn; try discriminate.
  intros Hc. apply typer_prompt_shorter in Hc. rewrite Hs in Hc. exact Hc.
Qed.

Lemma shell_prompt_lines (st : State W) c :
  out_res (shell_prompt st) = Ret c ->
  (lines_left (pending (stdin (out_st (shell_prompt st))))
   < lines_left (pending (stdin st)))%nat.
Proof.
  unfold shell_prompt, bind.
  pose proof (call_stdin (call_cfg_get "DEFAULT_EXECUTE_SHELL_CMD")
                (cfg_get "DEFAULT_EXECUTE_SHELL_CMD") st) as Hs.
  destruct (out_res (call _ _ st)) as [v|e|]; cbn [out_res out_st];
    try discriminate.
  unfold typer_prompt. rewrite Hs.
  destruct (click_prompt _ _ (pending (stdin st))) as [[c'|] rest] eqn:E;
    cbn; intros Hc; [|discriminate].
  eapply click_prompt_lines; eauto.
Qed.


Lemma shell_prompt_In (st : State W) c :
  out_res (shell_prompt st) = Ret c -> In c ["e"; "d"; "a"; "y"; "c"].
Proof.
  unfold shell_prompt, bind.
  destruct (out_res (call _ _ st)) as [v|e|]; cbn; try discriminate.
  apply typer_prompt_In.
Qed.

Lemma shell_body_stdin a fc option (st : State W) :
  stdin (out_st (shell_body a fc option st)) = stdin st.
Proof.
  unfold shell_body, copy_action, bind, call, read_local, print, ret, raise.
  destruct fc; run; reflexivity.
Qed.


(** Describe is the only answer after which the body asks for another
    iteration. *)
Lemma shell_body_Continue a fc option (st : State W) :
  out_res (shell_body a fc option st) = Ret Continue -> option = "d".
Proof.
  unfold shell_body, copy_action, bind, call, read_local, print, ret, raise.
  destruct fc; run; try discriminate;
    intros _; apply String.eqb_eq; assumption.
Qed.

(** Fuel beyond the number of lines left on standard input is never used. *)
Lemma while_shell_fuel n m a sp fc (st : State W) :
  (length (pending (stdin st)) < n)%nat ->
  (length (pending (stdin st)) < m)%nat ->
  while_shell n a sp fc st = while_shell m a sp fc st.
Proof.
  revert m st. induction n as [|n IH]; intros m st Hn Hm; [lia|].
  destruct m as [|m]; [lia|].
  cbn [while_shell]. destruct (shell a && negb sp)%bool; [|reflexivity].
  unfold bind at 1 3.
  destruct (out_res (shell_prompt st)) as [c| |] eqn:Ec; [|reflexivity..].
  apply shell_prompt_shorter in Ec.
  unfold bind.
  pose proof (shell_body_stdin a fc c (out_st (shell_prompt st))) as Hs.
  destruct (out_res (shell_body a fc c (out_st (shell_prompt st))))
    as [[|]| |]; try reflexivity.
  rewrite (IH m); [reflexivity | rewrite Hs; lia | rewrite Hs; lia].
Qed.


(** The loop unrolled once: an iteration that ends in [continue] is
    followed by the whole loop again, with the same [full_completion]. *)
Lemma shell_block_unroll a fc (st : State W) :
  shell a = true ->
  shell_block a false fc st =
  (option <- shell_prompt ;;
   l <- shell_body a fc option ;;
   match l with
   | Continue => shell_block a false fc
   | Break => ret tt
   end) st.
Proof.
  intros Hs. unfold shell_block at 1. cbn [while_shell]. rewrite Hs. cbn [negb andb].
  unfold bind at 1 3.
  destruct (out_res (shell_prompt st)) as [c| |] eqn:Ec; [|reflexivity..].
  apply shell_prompt_shorter in Ec.
  unfold bind.
  pose proof (shell_body_stdin a fc c (out_st (shell_prompt st))) as Hb.
  destruct (out_res (shell_body a fc c (out_st (shell_prompt st))))
    as [[|]| |]; try reflexivity.
  unfold shell_block.
  rewrite (while_shell_fuel _
    (S (length (pending (stdin (out_st
       (shell_body a fc c (out_st (shell_prompt st)))))))));
    [reflexivity | rewrite Hb; lia | lia].
Qed.

(** The loop is not entered with piped input or without [--shell]. *)
Lemma shell_block_skipped a sp fc (st : State W) :
  (shell a && negb sp)%bool = false ->
  shell_block a sp fc st = mkOut (Ret tt) st [].
Proof.
  intros Hc. unfold shell_block. cbn [while_shell]. rewrite Hc. reflexivity.
Qed.


End Loop.

(** ** Usage errors *)

Section Usage.
Context {W : Type} `{Collaborators W}.
Local Open Scope prog_scope.

(** With conflicting flags, or with the editor on a pipe, whatever the
    other options are: an exception, and nothing called but the read of a
    piped standard input. *)
Lemma early_outcome a (st : State W) :
  conflicting a = true \/
  (editor a && negb (isatty (stdin st)))%bool = true ->
  (exists e, out_res (main a st) = Raise e) /\
  Forall (fun c => c = sys_stdin_read) (out_trace (main a st)) /\
  world (out_st (main a st)) = world st.
Proof.
  intros Hearly. destruct (main_early a st Hearly) as [e He]. rewrite He.
  cbn [out_res out_st out_trace].
  rewrite fold_stdin_trace, fold_stdin_world.
  split; [eauto|]. split; [|reflexivity].
  destruct (negb (isatty (stdin st)) && negb (repl a))%bool;
    repeat constructor.
Qed.

(** The exception is the usage error of line 152 when line 148 returns. *)
Lemma conflict_outcome a (st : State W) :
  conflicting a = true -> read_returns a st ->
  out_res (main a st) = Raise (BadArgumentUsage conflict_message) /\
  entry_point a st = Some 2.
Proof.
  intros Hc Hr. unfold entry_point. rewrite (main_conflict a st Hc Hr).
  split; reflexivity.
Qed.

(** It is the exception of line 148 when that line raises. *)
Lemma read_raises_outcome a (st : State W) e :
  isatty (stdin st) = false -> repl a = false ->
  sys_stdin_read_error (stdin_text (stdin st)) = Some e ->
  out_res (main a st) = Raise e.
Proof.
  intros Ht Hr He. rewrite (main_read_raises a st e); [reflexivity|].
  rewrite fold_stdin_eq, Ht, Hr. cbn. rewrite He. reflexivity.
Qed.

Lemma only_stdin_read (P : Call -> Prop) (t : list Call) :
  P sys_stdin_read -> Forall (fun c => c = sys_stdin_read) t -> Forall P t.
Proof.
  intros HP Ht. eapply Forall_impl; [exact Ht|].
  intros c ->. exact HP.
Qed.

End Usage.

(** C2 (as amended): with more than one of [shell], [describe_shell] and
    [code] set, [main] submits no completion request: the only call it can
    have made is the read of a piped standard input, and the collaborators'
    world is as it was.  It fails with the conflicting-modes usage error
    (exit status 2) when that read, which comes first, does not raise, and
    with the exception of the read when it does. *)
Theorem C2_conflicting_modes {W : Type} `{Collaborators W}
  (a : Args) (st : State W) :
  conflicting a = true ->
  (read_returns a st ->
   out_res (main a st) = Raise (BadArgumentUsage conflict_message) /\
   entry_point a st = Some 2) /\
  (forall e,
     isatty (stdin st) = false -> repl a = false ->
     sys_stdin_read_error (stdin_text (stdin st)) = Some e ->
     out_res (main a st) = Raise e) /\
  Forall (fun c => is_completion_call c = false) (out_trace (main a st)) /\
  Forall (fun c => c = sys_stdin_read) (out_trace (main a st)) /\
  world (out_st (main a st)) = world st.
Proof.
  intros Hc.
  destruct (early_outcome a st (or_introl Hc)) as (_ & Ht & Hw).
  split; [apply conflict_outcome; exact Hc|].
  split; [intros e; apply read_raises_outcome|].
  repeat split; try assumption.
  apply (only_stdin_read (fun c => is_completion_call c = false));
    [reflexivity | exact Ht].
Qed.

(** [sgpt --shell --code "list files"] on a terminal. *)
Lemma C2_witness :
  conflicting (with_modes true false true (with_prompt "list files" default_args))
  = true /\
  @read_returns World sim
    (with_modes true false true (with_prompt "list files" default_args))
    (terminal []) /\
  out_res (@main World sim
             (with_modes true false true (with_prompt "list files" default_args))
             (terminal []))
  = Raise (BadArgumentUsage conflict_message).
Proof.
  split; [reflexivity|]. split; [left; reflexivity|].
  apply (proj1 (@C2_conflicting_modes World sim
           (with_modes true false true (with_prompt "list files" default_args))
           (terminal []) eq_refl)).
  left. reflexivity.
Defined.

(** C2, as stated, fails: [sgpt --shell --code "list files"] on a pipe
    whose bytes do not decode ends in [sys.stdin.read()] on line 148, with
    that exception and status 1, and the usage error is never raised. *)
Lemma C2_counterexample :
  conflicting (with_modes true false true (with_prompt "list files" default_args))
  = true /\
  out_res (@main World sim_undecodable
             (with_modes true false true (with_prompt "list files" default_args))
             (pipe ["data"; ""]))
  = Raise (Error "UnicodeDecodeError") /\
  @entry_point World sim_undecodable
    (with_modes true false true (with_prompt "list files" default_args))
    (pipe ["data"; ""])
  = Some 1.
Proof. repeat split. Qed.

(** C10 (as amended): with [--editor] and a piped standard input,
    [get_edited_prompt] is never called, no role is resolved, no completion
    is requested and the collaborators' world is as it was.  [main] fails
    with a usage error (exit status 2) when the read of standard input,
    which comes first without the REPL flag, does not raise, and with the
    exception of the read when it does. *)
Theorem C10_editor_with_pipe {W : Type} `{Collaborators W}
  (a : Args) (st : State W) :
  editor a = true -> isatty (stdin st) = false ->
  (read_returns a st ->
   (exists message, out_res (main a st) = Raise (BadArgumentUsage message)) /\
   entry_point a st = Some 2) /\
  (forall e,
     repl a = false ->
     sys_stdin_read_error (stdin_text (stdin st)) = Some e ->
     out_res (main a st) = Raise e) /\
  ~ In call_get_edited_prompt (out_trace (main a st)) /\
  Forall (fun c => is_role_call c = false) (out_trace (main a st)) /\
  Forall (fun c => is_completion_call c = false) (out_trace (main a st)) /\
  world (out_st (main a st)) = world st.
Proof.
  intros He Ht.
  assert (Hearly : conflicting a = true \/
                   (editor a && negb (isatty (stdin st)))%bool = true)
    by (right; rewrite He, Ht; reflexivity).
  destruct (early_outcome a st Hearly) as (_ & Hcalls & Hw).
  split.
  { intros Hr. unfold entry_point. destruct (conflicting a) eqn:Hc.
    - rewrite (main_conflict a st Hc Hr). split; [eauto | reflexivity].
    - rewrite (main_editor_pipe a st Hc He Ht Hr).
      split; [eauto | reflexivity]. }
  split; [intros e Hr; apply read_raises_outcome; assumption|].
  split.
  { intros Hin. rewrite List.Forall_forall in Hcalls.
    apply Hcalls in Hin. discriminate. }
  split; [|split; [|exact Hw]].
  - apply (only_stdin_read (fun c => is_role_call c = false));
      [reflexivity | exact Hcalls].
  - apply (only_stdin_read (fun c => is_completion_call c = false));
      [reflexivity | exact Hcalls].
Qed.

(** [echo data | sgpt --editor]. *)
Lemma C10_witness :
  editor (with_editor default_args) = true /\
  isatty (stdin (pipe ["data"; ""])) = false /\
  @read_returns World sim (with_editor default_args) (pipe ["data"; ""]) /\
  out_trace (@main World sim (with_editor default_args) (pipe ["data"; ""]))
  = [sys_stdin_read] /\
  (exists message,
     out_res (@main World sim (with_editor default_args) (pipe ["data"; ""]))
     = Raise (BadArgumentUsage message)).
Proof.
  split; [reflexivity|]. split; [reflexivity|].
  split; [right; right; reflexivity|]. split; [reflexivity|].
  apply (proj1 (@C10_editor_with_pipe World sim (with_editor default_args)
                  (pipe ["data"; ""]) eq_refl eq_refl)).
  right; right; reflexivity.
Defined.

(** C10, as stated, fails: [sgpt --editor] on a pipe whose bytes do not
    decode ends in [sys.stdin.read()] on line 148, with that exception and
    status 1, and the usage error is never raised. *)
Lemma C10_counterexample :
  editor (with_editor default_args) = true /\
  isatty (stdin (pipe ["data"; ""])) = false /\
  out_res (@main World sim_undecodable (with_editor default_args)
             (pipe ["data"; ""]))
  = Raise (Error "UnicodeDecodeError") /\
  @entry_point World sim_undecodable (with_editor default_args)
    (pipe ["data"; ""])
  = Some 1.
Proof. repeat split. Qed.

(** ** After the usage checks *)

Section Dispatch.
Context {W : Type} `{Collaborators W}.
Local Open Scope prog_scope.

Lemma check_usage_eq a sp (st : State W) :
  check_usage a sp st =
  mkOut (if conflicting a then Raise (BadArgumentUsage conflict_message)
         else if (editor a && sp)%bool
              then Raise (BadArgumentUsage editor_message)
              else Ret tt) st [].
Proof.
  rewrite conflicting_sum. unfold check_usage, bind.
  destruct (1 <? py_sum [shell a; describe_shell a; code a]); [reflexivity|].
  destruct (editor a && sp)%bool; reflexivity.
Qed.

(** [main] is the two usage checks followed by [after_usage]. *)
Lemma main_after_usage a (st : State W) :
  conflicting a = false ->
  (editor a && negb (isatty (stdin st)))%bool = false ->
  read_returns a st ->
  main a st =
  after (out_trace (fold_stdin a st))
    (after_usage a (negb (isatty (stdin st)))
       (if (negb (isatty (stdin st)) && negb (repl a))%bool
        then Some (stdin_text (stdin st) +:+ nl +:+ nl +:+ py_or (prompt a) "")
        else prompt a)
       (out_st (fold_stdin a st))).
Proof.
  intros Hc He Hr.
  assert (Hu : forall st' : State W,
             check_usage a (negb (isatty (stdin st))) st' = mkOut (Ret tt) st' []).
  { intros st'. rewrite check_usage_eq, Hc, He. reflexivity. }
  pose proof (fold_stdin_returns a st Hr) as Hf.
  unfold main. rewrite (bind_Ret _ _ _ _ Hf). cbn [fst snd].
  f_equal. unfold bind at 1. rewrite Hu. cbn [out_res out_st out_trace app].
  match goal with
  | |- mkOut (out_res ?o) (out_st ?o) (out_trace ?o) = _ => destruct o
  end.
  reflexivity.
Qed.

(** [main] ends in lines 145-157 with an exception, or goes on to line
    159 with standard input read. *)
Lemma main_cases a (st : State W) :
  (exists e,
     main a st =
     mkOut (Raise e) (out_st (fold_stdin a st)) (out_trace (fold_stdin a st))) \/
  (conflicting a = false /\
   (editor a && negb (isatty (stdin st)))%bool = false /\
   read_returns a st).
Proof.
  destruct (fold_stdin_cases a st) as [Hr|[e He]];
    [|left; eexists; apply main_read_raises; exact He].
  destruct (conflicting a) eqn:Hc;
    [left; apply main_early; left; exact Hc|].
  destruct (editor a && negb (isatty (stdin st)))%bool eqn:He;
    [left; apply main_early; right; exact He|].
  right. auto.
Qed.

Lemma role_class_trace a (st : State W) :
  out_trace (role_class a st) =
  [if truthy (role a) then call_SystemRole_get (py_or (role a) "")
   else call_check_get (shell a) (describe_shell a) (code a)].
Proof.
  unfold role_class, call. destruct (truthy (role a)); cbn.
  - destruct (SystemRole_get _ _); reflexivity.
  - destruct (DefaultRoles_check_get _ _ _ _); reflexivity.
Qed.

(** Lines 187-189 reached without a prompt: role resolution has run, and
    if it returned, the missing parameter is reported next. *)
Lemma after_usage_missing a sp p (st : State W) :
  editor a = false -> truthy p = false ->
  repl a = false -> print_chat a = false -> delete_chat a = false ->
  truthy_str (chat_id a) = true ->
  after_usage a sp p st =
  mkOut (match out_res (role_class a st) with
         | Ret _ => Raise (MissingParameter "PROMPT" "string")
         | Raise e => Raise e
         | OutOfFuel => OutOfFuel
         end)
        (out_st (role_class a st)) (out_trace (role_class a st)).
Proof.
  intros He Hp Hr Hpc Hd Hc.
  unfold after_usage, edit_prompt, repl_block, print_chat_block,
    delete_chat_block, chat_block.
  rewrite He, Hr, Hpc, Hd, Hc.
  unfold bind, ret, raise. cbn [out_res out_st out_trace app].
  rewrite Hp. cbn [negb out_res out_st out_trace].
  destruct (out_res (role_class a st)); cbn; rewrite ?app_nil_r; reflexivity.
Qed.

End Dispatch.

(** C3 (as amended): with conflicting mode flags [main] resolves no role,
    requests no completion and leaves the collaborators' world as it was;
    it ends with the conflicting-modes usage error, exit status 2, when the
    read of a piped standard input, which comes first, does not raise, and
    with the exception of the read when it does.  On a terminal, without
    the editor, REPL, print-chat and delete-chat flags, with a non-empty
    chat id and an absent or empty prompt, the missing prompt is detected
    after role resolution, not before: the trace and the final state are
    those of [role_class]; if the role resolves, [main] ends with the
    missing-parameter usage error, exit status 2, before any handler is
    built or called; if resolution raises, that exception is the result. *)
Theorem C3_validation_order {W : Type} `{Collaborators W}
  (a : Args) (st : State W) :
  (conflicting a = true ->
   Forall (fun c => is_role_call c = false) (out_trace (main a st)) /\
   Forall (fun c => is_completion_call c = false) (out_trace (main a st)) /\
   world (out_st (main a st)) = world st /\
   (read_returns a st ->
    out_res (main a st) = Raise (BadArgumentUsage conflict_message) /\
    entry_point a st = Some 2) /\
   (forall e,
      isatty (stdin st) = false -> repl a = false ->
      sys_stdin_read_error (stdin_text (stdin st)) = Some e ->
      out_res (main a st) = Raise e)) /\
  (conflicting a = false ->
   prompt a = None \/ prompt a = Some "" ->
   isatty (stdin st) = true -> editor a = false ->
   repl a = false -> print_chat a = false -> delete_chat a = false ->
   chat_id a <> "" ->
   out_trace (main a st) = out_trace (role_class a st) /\
   out_st (main a st) = out_st (role_class a st) /\
   Forall (fun c => is_completion_call c = false) (out_trace (main a st)) /\
   (forall rc, out_res (role_class a st) = Ret rc ->
      out_res (main a st) = Raise (MissingParameter "PROMPT" "string") /\
      entry_point a st = Some 2) /\
   (forall e, out_res (role_class a st) = Raise e ->
      out_res (main a st) = Raise e)).
Proof.
  split.
  - intros Hc.
    destruct (early_outcome a st (or_introl Hc)) as (_ & Ht & Hw).
    split; [|split; [|split; [exact Hw|split]]].
    + apply (only_stdin_read (fun c => is_role_call c = false));
        [reflexivity | exact Ht].
    + apply (only_stdin_read (fun c => is_completion_call c = false));
        [reflexivity | exact Ht].
    + apply conflict_outcome; exact Hc.
    + intros e. apply read_raises_outcome.
  - intros Hc Hp Ht He Hr Hpc Hd Hid.
    assert (Hp' : truthy (prompt a) = false)
      by (destruct Hp as [-> | ->]; reflexivity).
    assert (Hid' : truthy_str (chat_id a) = true).
    { unfold truthy_str. destruct (String.eqb_spec (chat_id a) "");
        [contradiction | reflexivity]. }
    unfold entry_point.
    rewrite main_after_usage by (rewrite ?He; auto; left; exact Ht).
    rewrite fold_stdin_eq, Ht. cbn [negb andb out_st out_trace].
    rewrite after_usage_missing by assumption.
    unfold after. cbn [out_res out_st out_trace app].
    split; [reflexivity|]. split; [reflexivity|].
    split.
    { rewrite role_class_trace. destruct (truthy (role a));
        repeat constructor. }
    split.
    + intros rc E. rewrite E. split; reflexivity.
    + intros e E. rewrite E. reflexivity.
Qed.

(** [sgpt --shell --code "list files"], and [sgpt] with nothing at all. *)
Lemma C3_witness :
  conflicting (with_modes true false true (with_prompt "list files" default_args))
  = true /\
  @read_returns World sim
    (with_modes true false true (with_prompt "list files" default_args))
    (terminal []) /\
  out_res (@main World sim
             (with_modes true false true (with_prompt "list files" default_args))
             (terminal []))
  = Raise (BadArgumentUsage conflict_message) /\
  conflicting default_args = false /\
  out_trace (@main World sim default_args (terminal []))
  = out_trace (@role_class World sim default_args (terminal [])) /\
  out_res (@main World sim default_args (terminal []))
  = Raise (MissingParameter "PROMPT" "string").
Proof.
  split; [reflexivity|]. split; [left; reflexivity|]. split.
  { pose proof (proj1 (@C3_validation_order World sim
       (with_modes true false true (with_prompt "list files" default_args))
       (terminal [])) eq_refl) as (_ & _ & _ & Hu & _).
    apply Hu. left. reflexivity. }
  split; [reflexivity|].
  pose proof (proj2 (@C3_validation_order World sim default_args (terminal []))
                eq_refl (or_introl eq_refl) eq_refl eq_refl eq_refl eq_refl
                eq_refl) as Hm.
  destruct Hm as (Ht & _ & _ & Hr & _); [discriminate|].
  split; [exact Ht|].
  apply (Hr (get_role DEFAULT)). reflexivity.
Defined.

(** C3, as stated, fails: [sgpt] with no prompt on a terminal ends with the
    missing-parameter usage error only after a role has been resolved. *)
Lemma C3_counterexample :
  prompt default_args = None /\
  out_res (@main World sim default_args (terminal []))
  = Raise (MissingParameter "PROMPT" "string") /\
  out_trace (@main World sim default_args (terminal []))
  = [call_check_get false false false] /\
  existsb is_role_call (out_trace (@main World sim default_args (terminal [])))
  = true.
Proof. repeat split. Qed.

(** ** Role resolution *)

Section Roles.
Context {W : Type} `{Collaborators W}.

Lemma py_or_Some s : py_or (Some s) "" = s.
Proof.
  unfold py_or, truthy_str.
  destruct (String.eqb_spec s ""); [symmetry; assumption | reflexivity].
Qed.

(** Lines 162-166 with a non-empty [--role]: [SystemRole.get(role)], the
    mode flags are not looked at. *)
Lemma role_class_named a name (st : State W) :
  role a = Some name -> name <> "" ->
  role_class a st = call (call_SystemRole_get name) (SystemRole_get name) st.
Proof.
  intros Hr Hn. unfold role_class. rewrite Hr, py_or_Some.
  cbn [truthy]. unfold truthy_str.
  destruct (String.eqb_spec name ""); [contradiction | reflexivity].
Qed.

(** Lines 162-166 without [--role], or with an empty one:
    [DefaultRoles.check_get(shell, describe_shell, code)]. *)
Lemma role_class_flags a (st : State W) :
  role a = None \/ role a = Some "" ->
  role_class a st =
  call (call_check_get (shell a) (describe_shell a) (code a))
       (DefaultRoles_check_get (shell a) (describe_shell a) (code a)) st.
Proof. intros [Hr|Hr]; unfold role_class; rewrite Hr; reflexivity. Qed.

End Roles.

(** C4 (as amended): when a non-empty role name is given, [role_class] is
    the role looked up under that name, whatever the mode flags are, and a
    name that is not known raises; when no role name is given, or an empty
    one, the role is derived from the flags, and it is the default
    assistant role when none of them is set. *)
Theorem C4_role_resolution (a : Args) (st : State World) :
  (forall name, role a = Some name -> name <> "" ->
     @role_class World sim a st
     = call (call_SystemRole_get name) (sim_SystemRole_get name) st /\
     out_trace (@role_class World sim a st) = [call_SystemRole_get name] /\
     out_res (@role_class World sim a st)
     = match builtin_role name, roles (world st) !! name with
       | Some r, _ => Ret r
       | None, Some r => Ret r
       | None, None => Raise (Error "UnknownRoleError")
       end) /\
  (role a = None \/ role a = Some "" ->
     @role_class World sim a st
     = call (call_check_get (shell a) (describe_shell a) (code a))
            (sim_check_get (shell a) (describe_shell a) (code a)) st /\
     (conflicting a = false ->
      out_res (@role_class World sim a st)
      = Ret (get_role (flag_role (shell a) (describe_shell a) (code a)))) /\
     (shell a = false -> describe_shell a = false -> code a = false ->
      out_res (@role_class World sim a st) = Ret (get_role DEFAULT))).
Proof.
  split.
  - intros name Hr Hn.
    rewrite (@role_class_named World sim a name st Hr Hn).
    split; [reflexivity|].
    unfold call. cbn [SystemRole_get sim sim_collaborators].
    unfold sim_SystemRole_get.
    destruct (builtin_role name); [split; reflexivity|].
    destruct (roles (world st) !! name); split; reflexivity.
  - intros Hr. rewrite (@role_class_flags World sim a st Hr).
    split; [reflexivity|].
    unfold call. cbn [DefaultRoles_check_get sim sim_collaborators].
    unfold sim_check_get. split.
    + intros Hc. rewrite conflicting_sum in Hc. rewrite Hc. reflexivity.
    + intros -> -> ->. reflexivity.
Qed.

(** [sgpt --shell --role custom-role "list files"] with no such role
    stored, and [sgpt "list files"]. *)
Lemma C4_witness :
  role (with_role "custom-role"
          (with_modes true false false (with_prompt "list files" default_args)))
  = Some "custom-role" /\
  "custom-role" <> "" /\
  out_trace (@role_class World sim
     (with_role "custom-role"
        (with_modes true false false (with_prompt "list files" default_args)))
     (terminal []))
  = [call_SystemRole_get "custom-role"] /\
  out_res (@role_class World sim (with_prompt "list files" default_args)
             (terminal []))
  = Ret (get_role DEFAULT).
Proof.
  split; [reflexivity|]. split; [discriminate|]. split.
  - apply (proj1 (C4_role_resolution
       (with_role "custom-role"
          (with_modes true false false (with_prompt "list files" default_args)))
       (terminal [])) "custom-role"); [reflexivity | discriminate].
  - apply (proj2 (C4_role_resolution (with_prompt "list files" default_args)
                    (terminal []))); [left|..]; reflexivity.
Defined.

(** C4, as stated, fails for the empty role name: [sgpt --shell --role ""
    "list files"] resolves the shell role from the flags, and no lookup of
    the given name is made (it would raise). *)
Lemma C4_counterexample :
  role (with_role ""
          (with_modes true false false (with_prompt "list files" default_args)))
  = Some "" /\
  out_trace (@role_class World sim
     (with_role ""
        (with_modes true false false (with_prompt "list files" default_args)))
     (terminal []))
  = [call_check_get true false false] /\
  out_res (@role_class World sim
     (with_role ""
        (with_modes true false false (with_prompt "list files" default_args)))
     (terminal []))
  = Ret (get_role SHELL) /\
  fst (sim_SystemRole_get "" sample_world) = Raises (Error "UnknownRoleError").
Proof. repeat split. Qed.

(** ** The action machines *)

Section Actions.
Context {W : Type} `{Collaborators W}.
Local Open Scope prog_scope.

(** Describe: three calls, then [continue]. *)
Lemma shell_body_describe a text (st : State W) rc r w1 w2 w3 :
  DESCRIBE_SHELL_get_role (world st) = (Returns rc, w1) ->
  DefaultHandler_init rc w1 = (Returns tt, w2) ->
  DefaultHandler_handle rc text (kwargs a None) w2 = (Returns r, w3) ->
  shell_body a (Some text) "d" st =
  mkOut (Ret Continue) (mkState (stdin st) w3)
    [call_DESCRIBE_SHELL_get_role; call_DefaultHandler rc;
     call_DefaultHandler_handle text (kwargs a None)].
Proof.
  intros H1 H2 H3. unfold shell_body. cbn.
  unfold bind, call, read_local, ret. cbn.
  rewrite H1. cbn. rewrite H2. cbn. rewrite H3. reflexivity.
Qed.

(** Execute, under either spelling: [run_command], then [break]. *)
Lemma shell_body_execute a text option (st : State W) :
  option = "e" \/ option = "y" ->
  shell_body a (Some text) option st =
  (call (call_run_command text) (run_command text) ;; ret Break) st.
Proof.
  intros [-> | ->]; unfold shell_body; cbn;
    unfold bind, call, read_local, ret; cbn;
    destruct (run_command text (world st)) as [[[]|e] w]; reflexivity.
Qed.

(** Abort: [break], nothing else. *)
Lemma shell_body_abort a fc (st : State W) :
  shell_body a fc "a" st = mkOut (Ret Break) st [].
Proof. reflexivity. Qed.

(** Copy: the clipboard, the message, then [break]. *)
Lemma shell_body_copy a text (st : State W) w1 :
  copy_to_clipboard text (world st) = (Returns tt, w1) ->
  shell_body a (Some text) "c" st =
  mkOut (Ret Break) (mkState (stdin st) w1)
    [call_copy_to_clipboard text; call_print "Command copied to clipboard!"].
Proof.
  intros H1. unfold shell_body. cbn.
  unfold copy_action, bind, call, read_local, print, ret. cbn.
  rewrite H1. reflexivity.
Qed.

(** An iteration that ends in [break] ends the loop. *)
Lemma shell_block_break a fc (st : State W) option :
  shell a = true ->
  out_res (shell_prompt st) = Ret option ->
  out_res (shell_body a fc option (out_st (shell_prompt st))) = Ret Break ->
  shell_block a false fc st =
  after (out_trace (shell_prompt st))
    (mkOut (Ret tt)
       (out_st (shell_body a fc option (out_st (shell_prompt st))))
       (out_trace (shell_body a fc option (out_st (shell_prompt st))))).
Proof.
  intros Hs Hp Hb. rewrite shell_block_unroll by assumption.
  rewrite (bind_Ret _ _ _ _ Hp). f_equal.
  rewrite (bind_Ret _ _ _ _ Hb). unfold after, ret. cbn.
  rewrite app_nil_r. reflexivity.
Qed.

(** The calls of the code-only block. *)
Lemma code_block_calls a fc (st : State W) :
  Forall (fun c => is_code_action c = true) (out_trace (code_block a fc st)).
Proof.
  unfold code_block, copy_action, bind, call, read_local, print, ret, raise,
    typer_prompt.
  destruct fc; run; repeat constructor.
Qed.

(** With [--code] the block starts with its prompt, whatever standard
    input is. *)
Lemma code_block_prompts a fc (st : State W) :
  code a = true ->
  exists rest,
    out_trace (code_block a fc st)
    = call_typer_prompt "[C]opy, [A]bort" ["c"; "a"] "a" :: rest.
Proof.
  intros Hc. unfold code_block, bind. rewrite Hc.
  pose proof (typer_prompt_trace "[C]opy, [A]bort" ["c"; "a"] "a" st) as Ht.
  destruct (out_res (typer_prompt _ _ _ st)); cbn [out_trace];
    rewrite Ht; cbn; eauto.
Qed.


End Actions.

(** C5: in the shell loop, the answer Describe calls the describe-shell
    role and a fresh [DefaultHandler] on the pending completion text and
    ends the iteration with [continue]; an iteration that continues is
    followed by the whole loop again, from its prompt and with the same
    [full_completion]; Describe is the only answer after which the body
    continues; Execute (either spelling) runs the command and breaks, and
    Abort breaks at once. *)
Theorem C5_describe_loops {W : Type} `{Collaborators W}
  (a : Args) (text : string) :
  shell a = true ->
  (forall st : State W,
     shell_block a false (Some text) st =
     bind shell_prompt (fun option =>
       bind (shell_body a (Some text) option) (fun l =>
         match l with
         | Continue => shell_block a false (Some text)
         | Break => ret tt
         end)) st) /\
  (forall (st : State W) rc r w1 w2 w3,
     DESCRIBE_SHELL_get_role (world st) = (Returns rc, w1) ->
     DefaultHandler_init rc w1 = (Returns tt, w2) ->
     DefaultHandler_handle rc text (kwargs a None) w2 = (Returns r, w3) ->
     shell_body a (Some text) "d" st =
     mkOut (Ret Continue) (mkState (stdin st) w3)
       [call_DESCRIBE_SHELL_get_role; call_DefaultHandler rc;
        call_DefaultHandler_handle text (kwargs a None)]) /\
  (forall (st : State W) fc option,
     out_res (shell_body a fc option st) = Ret Continue -> option = "d") /\
  (forall (st : State W) option, option = "e" \/ option = "y" ->
     shell_body a (Some text) option st =
     bind (call (call_run_command text) (run_command text))
          (fun _ => ret Break) st) /\
  (forall st : State W,
     shell_body a (Some text) "a" st = mkOut (Ret Break) st []).
Proof.
  intros Hs. split; [|split; [|split; [|split]]].
  - intros st. apply shell_block_unroll. exact Hs.
  - intros st rc r w1 w2 w3. apply shell_body_describe.
  - intros st fc option. apply shell_body_Continue.
  - intros st option. apply shell_body_execute.
  - intros st. apply shell_body_abort.
Qed.

(** [sgpt --shell "list files"], the user answers [d] and then [a]. *)
Lemma C5_witness :
  shell (with_modes true false false (with_prompt "list files" default_args))
  = true /\
  @shell_body World sim
    (with_modes true false false (with_prompt "list files" default_args))
    (Some "ls -la") "d" (terminal ["a"])
  = mkOut (Ret Continue) (terminal ["a"])
      [call_DESCRIBE_SHELL_get_role; call_DefaultHandler (get_role DESCRIBE_SHELL);
       call_DefaultHandler_handle "ls -la"
         (kwargs (with_modes true false false
                    (with_prompt "list files" default_args)) None)].
Proof.
  split; [reflexivity|].
  apply (proj1 (proj2 (@C5_describe_loops World sim
     (with_modes true false false (with_prompt "list files" default_args))
     "ls -la" eq_refl))
     (terminal ["a"]) (get_role DESCRIBE_SHELL) "ls -la"
     sample_world sample_world sample_world); reflexivity.
Defined.

(** C6 (as amended): in the shell loop, the answer Copy puts the completion
    text on the clipboard, prints the confirmation and ends the iteration
    with [break]: the loop is over, no further prompt is made. *)
Theorem C6_copy_breaks {W : Type} `{Collaborators W}
  (a : Args) (text : string) (st : State W) (w1 : W) :
  shell a = true ->
  out_res (shell_prompt st) = Ret "c" ->
  copy_to_clipboard text (world (out_st (shell_prompt st))) = (Returns tt, w1) ->
  shell_body a (Some text) "c" (out_st (shell_prompt st)) =
  mkOut (Ret Break) (mkState (stdin (out_st (shell_prompt st))) w1)
    [call_copy_to_clipboard text; call_print "Command copied to clipboard!"] /\
  shell_block a false (Some text) st =
  mkOut (Ret tt) (mkState (stdin (out_st (shell_prompt st))) w1)
    (out_trace (shell_prompt st) ++
     [call_copy_to_clipboard text; call_print "Command copied to clipboard!"]).
Proof.
  intros Hs Hp Hc.
  pose proof (shell_body_copy a text (out_st (shell_prompt st)) w1 Hc) as Hb.
  split; [exact Hb|].
  rewrite (shell_block_break a (Some text) st "c" Hs Hp)
    by (rewrite Hb; reflexivity).
  rewrite Hb. reflexivity.
Qed.

(** [sgpt --shell "list files"], the user answers [c] and has typed [e] on
    the next line. *)
Lemma C6_witness :
  shell (with_modes true false false (with_prompt "list files" default_args))
  = true /\
  out_res (@shell_prompt World sim (terminal ["c"; "e"])) = Ret "c" /\
  @shell_block World sim
    (with_modes true false false (with_prompt "list files" default_args))
    false (Some "ls -la") (terminal ["c"; "e"])
  = mkOut (Ret tt)
      (mkState (mkStdin true ["e"; ""]) (set_clipboard "ls -la" sample_world))
      [call_cfg_get "DEFAULT_EXECUTE_SHELL_CMD";
       call_typer_prompt "[E]xecute, [C]opy, [D]escribe, [A]bort"
         ["e"; "d"; "a"; "y"; "c"] "a";
       call_copy_to_clipboard "ls -la";
       call_print "Command copied to clipboard!"].
Proof.
  split; [reflexivity|]. split; [reflexivity|].
  apply (proj2 (@C6_copy_breaks World sim
     (with_modes true false false (with_prompt "list files" default_args))
     "ls -la" (terminal ["c"; "e"]) (set_clipboard "ls -la" sample_world)
     eq_refl eq_refl eq_refl)).
Defined.

(** C6, as stated, fails: after the answer [c] the loop is over, although
    the user has typed [e] on the next line: one prompt was made, that line
    is still unread and nothing was run. *)
Lemma C6_counterexample :
  out_res (@shell_body World sim
    (with_modes true false false (with_prompt "list files" default_args))
    (Some "ls -la") "c" (terminal ["e"]))
  = Ret Break /\
  filter (fun c => is_prompt_call c)
    (out_trace (@main World sim
       (with_modes true false false (with_prompt "list files" default_args))
       (terminal ["c"; "e"])))
  = [call_typer_prompt "[E]xecute, [C]opy, [D]escribe, [A]bort"
       ["e"; "d"; "a"; "y"; "c"] "a"] /\
  pending (stdin (out_st (@main World sim
       (with_modes true false false (with_prompt "list files" default_args))
       (terminal ["c"; "e"]))))
  = ["e"; ""] /\
  executed (world (out_st (@main World sim
       (with_modes true false false (with_prompt "list files" default_args))
       (terminal ["c"; "e"]))))
  = [].
Proof. repeat split. Qed.

(** ** The calls of a whole run *)

Section Calls.
Context {W : Type} `{Collaborators W}.
Local Open Scope prog_scope.

Lemma shell_prompt_calls (st : State W) :
  Forall (fun c => is_action_call c = true) (out_trace (shell_prompt st)).
Proof.
  unfold shell_prompt, bind, call, typer_prompt. run; repeat constructor.
Qed.

Lemma shell_body_calls a fc option (st : State W) :
  Forall (fun c => is_action_call c = true)
         (out_trace (shell_body a fc option st)).
Proof.
  unfold shell_body, copy_action, bind, call, read_local, print, ret, raise.
  destruct fc; run; repeat constructor.
Qed.

Lemma while_shell_calls n a sp fc (st : State W) :
  Forall (fun c => is_action_call c = true)
         (out_trace (while_shell n a sp fc st)).
Proof.
  revert st. induction n as [|n IH]; intros st; cbn [while_shell];
    destruct (shell a && negb sp)%bool; try constructor.
  apply bind_Forall; [apply shell_prompt_calls|]. intros option _.
  apply bind_Forall; [apply shell_body_calls|]. intros [|] _.
  - apply IH.
  - constructor.
Qed.

Lemma shell_block_calls a sp fc (st : State W) :
  Forall (fun c => is_action_call c = true)
         (out_trace (shell_block a sp fc st)).
Proof. apply while_shell_calls. Qed.

(** The shape of the trace of lines 159-235. *)
Lemma after_usage_calls (P : Call -> Prop) a sp p (st : State W) :
  (forall c, is_setup_call c = true -> P c) ->
  (forall p' kw, (editor a = false -> p' = p) -> repl a = true ->
                 P (call_ReplHandler_handle p' kw)) ->
  (forall text kw, (editor a = false -> text = py_or p "") ->
                   P (call_ChatHandler_handle text kw)) ->
  (forall c, code a = true -> is_code_action c = true -> P c) ->
  (forall c, shell a = true -> sp = false -> is_action_call c = true -> P c) ->
  Forall P (out_trace (after_usage a sp p st)).
Proof.
  intros Hsetup Hrepl Hchat Hcode Hshell. unfold after_usage.
  apply bind_Forall.
  { unfold edit_prompt. destruct (editor a); [|constructor].
    apply bind_Forall; [apply call_Forall, Hsetup; reflexivity|].
    intros; constructor. }
  intros p' Hp'.
  assert (Hed : editor a = false -> p' = p).
  { intros He. unfold edit_prompt in Hp'. rewrite He in Hp'.
    cbn in Hp'. congruence. }
  clear Hp'. set (st1 := out_st _). clearbody st1.
  apply bind_Forall.
  { rewrite role_class_trace. repeat constructor.
    destruct (truthy (role a)); apply Hsetup; reflexivity. }
  intros rc _. set (st2 := out_st _). clearbody st2.
  apply bind_Forall.
  { unfold repl_block. destruct (repl a) eqn:Hr; [|constructor].
    apply bind_Forall; [apply call_Forall, Hsetup; reflexivity|].
    intros _ _. apply call_Forall, Hrepl; auto. }
  intros _ _. set (st3 := out_st _). clearbody st3.
  apply bind_Forall.
  { unfold print_chat_block. destruct (print_chat a); [|constructor].
    apply bind_Forall; [apply call_Forall, Hsetup; reflexivity|].
    intros; constructor. }
  intros _ _. set (st4 := out_st _). clearbody st4.
  apply bind_Forall.
  { unfold delete_chat_block. destruct (delete_chat a); [|constructor].
    apply bind_Forall; [apply call_Forall, Hsetup; reflexivity|].
    intros _ _.
    apply bind_Forall; [apply call_Forall, Hsetup; reflexivity|].
    intros; constructor. }
  intros _ _. set (st5 := out_st _). clearbody st5.
  apply bind_Forall.
  { unfold chat_block. destruct (truthy_str (chat_id a)); [|constructor].
    destruct (negb (truthy p')); [constructor|].
    apply bind_Forall; [apply call_Forall, Hsetup; reflexivity|].
    intros _ _.
    apply bind_Forall; [|intros; constructor].
    apply call_Forall, Hchat. intros He. rewrite (Hed He). reflexivity. }
  intros fc _. set (st6 := out_st _). clearbody st6.
  apply bind_Forall.
  { destruct (code a) eqn:Hc.
    - eapply Forall_impl; [apply code_block_calls|].
      intros c Hcc. apply Hcode; auto.
    - unfold code_block. rewrite Hc. constructor. }
  intros _ _. set (st7 := out_st _). clearbody st7.
  destruct (shell a && negb sp)%bool eqn:Hs.
  - apply andb_true_iff in Hs as [Hs1 Hs2].
    eapply Forall_impl; [apply shell_block_calls|].
    intros c Hcc. apply Hshell; auto. destruct sp; [discriminate|reflexivity].
  - rewrite shell_block_skipped by assumption. constructor.
Qed.

(** The shape of the trace of [main]. *)
Lemma main_calls (P : Call -> Prop) a (st : State W) :
  (isatty (stdin st) = false -> repl a = false -> P sys_stdin_read) ->
  (conflicting a = false ->
   (editor a && negb (isatty (stdin st)))%bool = false ->
   forall p st',
     p = (if (negb (isatty (stdin st)) && negb (repl a))%bool
          then Some (stdin_text (stdin st) +:+ nl +:+ nl +:+ py_or (prompt a) "")
          else prompt a) ->
     Forall P (out_trace (after_usage a (negb (isatty (stdin st))) p st'))) ->
  Forall P (out_trace (main a st)).
Proof.
  intros Hread Hrest.
  assert (Hfold : Forall P (out_trace (fold_stdin a st))).
  { rewrite fold_stdin_trace.
    destruct (isatty (stdin st)) eqn:Ht, (repl a) eqn:Hr; cbn;
      repeat constructor. auto. }
  destruct (main_cases a st) as [[e He]|(Hc & He & Hr)].
  { rewrite He. exact Hfold. }
  rewrite main_after_usage by assumption.
  unfold after. cbn [out_trace]. apply Forall_app. split; [exact Hfold|].
  apply Hrest; auto.
Qed.




End Calls.

(** C7: with [--code] the block after the completion starts with a prompt
    that offers the choices [c] and [a] and only ever returns one of them: the
    answers [e] and [d], in either case, do not convert and are asked
    again.  Copy puts the completion text on the clipboard and prints the
    confirmation; Abort does nothing more.  The block makes no other call,
    and in the whole run of [main] no command is run and no description is
    requested. *)
Theorem C7_code_actions {W : Type} `{Collaborators W} (a : Args) (text : string) :
  code a = true ->
  (forall (st : State W) option,
     out_res (typer_prompt "[C]opy, [A]bort" ["c"; "a"] "a" st) = Ret option ->
     option = "c" \/ option = "a") /\
  (forall v, In (casefold v) ["e"; "d"; "y"] ->
     Choice_convert ["c"; "a"] v = None) /\
  (forall v l segs, In (casefold v) ["e"; "d"; "y"] ->
     click_prompt ["c"; "a"] "a" (v :: l :: segs)
     = click_prompt ["c"; "a"] "a" (l :: segs)) /\
  (forall (st : State W) w1,
     out_res (typer_prompt "[C]opy, [A]bort" ["c"; "a"] "a" st) = Ret "c" ->
     copy_to_clipboard text (world st) = (Returns tt, w1) ->
     code_block a (Some text) st =
     mkOut (Ret tt)
       (mkState (stdin (out_st (typer_prompt "[C]opy, [A]bort" ["c"; "a"] "a" st)))
                w1)
       [call_typer_prompt "[C]opy, [A]bort" ["c"; "a"] "a";
        call_copy_to_clipboard text;
        call_print "Command copied to clipboard!"]) /\
  (forall st : State W,
     out_res (typer_prompt "[C]opy, [A]bort" ["c"; "a"] "a" st) = Ret "a" ->
     code_block a (Some text) st =
     mkOut (Ret tt)
       (out_st (typer_prompt "[C]opy, [A]bort" ["c"; "a"] "a" st))
       [call_typer_prompt "[C]opy, [A]bort" ["c"; "a"] "a"]) /\
  (forall (st : State W) fc,
     Forall (fun c => is_code_action c = true)
            (out_trace (code_block a fc st))) /\
  (forall st : State W,
     Forall (fun c => is_run_command c = false /\ is_describe_call c = false)
            (out_trace (main a st))) /\
  (forall (st : State W) fc,
     exists rest,
       out_trace (code_block a fc st)
       = call_typer_prompt "[C]opy, [A]bort" ["c"; "a"] "a" :: rest).
Proof.
  intros Hcode.
  assert (Hreject : forall v, In (casefold v) ["e"; "d"; "y"] ->
                              Choice_convert ["c"; "a"] v = None).
  { intros v Hv. unfold Choice_convert. cbn.
    destruct Hv as [<-|[<-|[<-|[]]]]; reflexivity. }
  split; [|split; [|split; [|split; [|split; [|split; [|split]]]]]].
  - intros st option Ho. apply typer_prompt_In in Ho.
    destruct Ho as [<-|[<-|[]]]; auto.
  - exact Hreject.
  - intros v l segs Hv. cbn [click_prompt].
    assert (Hne : truthy_str v = true).
    { destruct v; [|reflexivity]. destruct Hv as [E|[E|[E|[]]]]; discriminate. }
    rewrite Hne, (Hreject v Hv). destruct v; reflexivity.
  - intros st w1 Hp Hc. unfold code_block. rewrite Hcode.
    rewrite (bind_Ret _ _ _ _ Hp). rewrite typer_prompt_trace.
    cbn -[typer_prompt].
    unfold copy_action, bind, call, read_local, print, ret, after.
    cbn -[typer_prompt]. rewrite typer_prompt_world, Hc. reflexivity.
  - intros st Hp. unfold code_block. rewrite Hcode.
    rewrite (bind_Ret _ _ _ _ Hp). rewrite typer_prompt_trace. reflexivity.
  - intros st fc. apply code_block_calls.
  - intros st. apply main_calls; [intros; split; reflexivity|].
    intros Hc _ p st' _.
    apply after_usage_calls.
    + intros c Hs. destruct c; try discriminate; split; reflexivity.
    + intros; split; reflexivity.
    + intros; split; reflexivity.
    + intros c _ Hc'. destruct c; try discriminate; split; reflexivity.
    + intros c Hs. unfold conflicting in Hc. rewrite Hs, Hcode in Hc.
      destruct (describe_shell a); discriminate.
  - intros st fc. apply code_block_prompts. exact Hcode.
Qed.

(** [sgpt --code "hello"], the user answers [E], which is refused, and
    then [C]. *)
Lemma C7_witness :
  code (with_modes false false true (with_prompt "hello" default_args)) = true /\
  out_res (@typer_prompt World "[C]opy, [A]bort" ["c"; "a"] "a"
             (terminal ["E"; "C"])) = Ret "c" /\
  @code_block World sim
    (with_modes false false true (with_prompt "hello" default_args))
    (Some "ls -la") (terminal ["E"; "C"])
  = mkOut (Ret tt) (mkState (mkStdin true [""])
                      (set_clipboard "ls -la" sample_world))
      [call_typer_prompt "[C]opy, [A]bort" ["c"; "a"] "a";
       call_copy_to_clipboard "ls -la";
       call_print "Command copied to clipboard!"].
Proof.
  split; [reflexivity|]. split; [reflexivity|].
  apply (proj1 (proj2 (proj2 (proj2 (@C7_code_actions World sim
     (with_modes false false true (with_prompt "hello" default_args))
     "ls -la" eq_refl))))
     (terminal ["E"; "C"]) (set_clipboard "ls -la" sample_world));
    reflexivity.
Defined.

Section Piped.
Context {W : Type} `{Collaborators W}.

Lemma py_or_cli_prompt a : py_or (prompt a) "" = cli_prompt a.
Proof.
  unfold cli_prompt. destruct (prompt a); [apply py_or_Some | reflexivity].
Qed.

(** The prompt of line 148 is never empty. *)
Lemma folded_truthy t u : truthy_str (t +:+ nl +:+ u) = true.
Proof. destruct t; reflexivity. Qed.

(** With piped input the shell loop is not entered: nothing is run and
    nothing described. *)
Lemma pipe_skips_shell_loop a (st : State W) :
  isatty (stdin st) = false ->
  Forall (fun c => is_run_command c = false /\ is_describe_call c = false /\
                   c <> call_cfg_get "DEFAULT_EXECUTE_SHELL_CMD")
         (out_trace (main a st)).
Proof.
  intros Ht. apply main_calls; [intros; repeat split; discriminate|].
  intros _ _ p st' _. rewrite Ht. apply after_usage_calls.
  - intros c Hs. destruct c; try discriminate; repeat split; discriminate.
  - intros; repeat split; discriminate.
  - intros; repeat split; discriminate.
  - intros c _ Hc. destruct c; try discriminate; repeat split; discriminate.
  - intros c _ Hsp. discriminate.
Qed.

End Piped.

(** C9: with a piped standard input and no REPL, whenever
    [sys.stdin.read()] returns, lines 145-148 give [stdin_passed] and the
    prompt made of the whole piped text, two newline characters and the
    prompt argument (nothing when it is absent); when it raises, [main]
    ends with that exception; and every [ChatHandler.handle] call of the
    run receives that prompt.  With the REPL flag standard input is not
    read by [main], and the handlers receive the prompt argument as it was
    given. *)
Theorem C9_piped_prompt {W : Type} `{Collaborators W} (a : Args) (st : State W) :
  isatty (stdin st) = false ->
  (repl a = false ->
   (sys_stdin_read_error (stdin_text (stdin st)) = None ->
    out_res (fold_stdin a st)
    = Ret (true, Some (stdin_text (stdin st) +:+ nl +:+ nl +:+ cli_prompt a))) /\
   (forall e,
      sys_stdin_read_error (stdin_text (stdin st)) = Some e ->
      out_res (main a st) = Raise e /\
      out_trace (main a st) = [sys_stdin_read]) /\
   forall text kw,
     In (call_ChatHandler_handle text kw) (out_trace (main a st)) ->
     text = stdin_text (stdin st) +:+ nl +:+ nl +:+ cli_prompt a) /\
  (repl a = true ->
   out_res (fold_stdin a st) = Ret (true, prompt a) /\
   ~ In sys_stdin_read (out_trace (main a st)) /\
   (forall p kw,
      In (call_ReplHandler_handle p kw) (out_trace (main a st)) ->
      p = prompt a) /\
   (forall text kw,
      In (call_ChatHandler_handle text kw) (out_trace (main a st)) ->
      text = cli_prompt a)).
Proof.
  intros Ht. split; intros Hr.
  - split.
    { intros Hread.
      rewrite fold_stdin_eq, Ht, Hr, py_or_cli_prompt. cbn.
      rewrite Hread. reflexivity. }
    split.
    { intros e Hread.
      rewrite (main_read_raises a st e).
      - cbn [out_res out_trace]. rewrite fold_stdin_trace, Ht, Hr.
        split; reflexivity.
      - rewrite fold_stdin_eq, Ht, Hr. cbn. rewrite Hread. reflexivity. }
    assert (HF : Forall (fun c =>
                match c with
                | call_ChatHandler_handle text _ =>
                    text = stdin_text (stdin st) +:+ nl +:+ nl +:+ cli_prompt a
                | _ => True
                end) (out_trace (main a st))).
    { apply main_calls; [exact (fun _ _ => I)|].
      rewrite Ht, Hr. cbn [negb andb]. intros _ He p st' ->.
      rewrite andb_true_r in He.
      apply after_usage_calls.
      - intros c Hs. destruct c; try discriminate; exact I.
      - intros; exact I.
      - intros text kw Ht'. rewrite (Ht' He), py_or_Some, py_or_cli_prompt.
        reflexivity.
      - intros c _ Hc. destruct c; try discriminate; exact I.
      - intros c _ Hc. discriminate. }
    intros text kw Hin. rewrite List.Forall_forall in HF.
    apply (HF _ Hin).
  - assert (HF : Forall (fun c =>
                match c with
                | sys_stdin_read => False
                | call_ReplHandler_handle p _ => p = prompt a
                | call_ChatHandler_handle text _ => text = cli_prompt a
                | _ => True
                end) (out_trace (main a st))).
    { apply main_calls; [intros _ Hr'; congruence|].
      rewrite Ht, Hr. cbn [negb andb]. intros _ He p st' ->.
      rewrite andb_true_r in He.
      apply after_usage_calls.
      - intros c Hs. destruct c; try discriminate; exact I.
      - intros p kw Hp _. exact (Hp He).
      - intros text kw Ht'. rewrite (Ht' He). apply py_or_cli_prompt.
      - intros c _ Hc. destruct c; try discriminate; exact I.
      - intros c _ Hc. discriminate. }
    rewrite List.Forall_forall in HF.
    split; [rewrite fold_stdin_eq, Ht, Hr; reflexivity|].
    split; [exact (HF sys_stdin_read)|].
    split; intros x kw Hin; apply (HF _ Hin).
Qed.

(** [printf 'data\n' | sgpt "hello"]. *)
Lemma C9_witness :
  isatty (stdin (pipe ["data"; ""])) = false /\
  repl (with_prompt "hello" default_args) = false /\
  @sys_stdin_read_error World sim (stdin_text (stdin (pipe ["data"; ""])))
  = None /\
  out_res (@fold_stdin World sim (with_prompt "hello" default_args)
             (pipe ["data"; ""]))
  = Ret (true, Some ("data" +:+ nl +:+ nl +:+ nl +:+ "hello")) /\
  In (call_ChatHandler_handle ("data" +:+ nl +:+ nl +:+ nl +:+ "hello")
        (kwargs (with_prompt "hello" default_args) (Some "temp")))
     (out_trace (@main World sim (with_prompt "hello" default_args)
                   (pipe ["data"; ""]))).
Proof.
  split; [reflexivity|]. split; [reflexivity|]. split; [reflexivity|]. split.
  - apply (proj1 (proj1 (@C9_piped_prompt World sim
                    (with_prompt "hello" default_args)
                    (pipe ["data"; ""]) eq_refl) eq_refl) eq_refl).
  - vm_compute. tauto.
Defined.

(** [printf 'data\n' | sgpt --interactive "hello"]: standard input is not
    read by [main] and the REPL receives the prompt argument as it is. *)
Example repl_pipe_sample :
  out_trace (@main World sim (with_repl (with_prompt "hello" default_args))
               (pipe ["data"; ""]))
  = [call_check_get false false false;
     call_ReplHandler "temp" (get_role DEFAULT);
     call_ReplHandler_handle (Some "hello")
       (kwargs (with_repl (with_prompt "hello" default_args)) (Some "temp"))] /\
  out_res (@main World sim (with_repl (with_prompt "hello" default_args))
             (pipe ["data"; ""]))
  = Raise Abort.
Proof. split; reflexivity. Qed.

(** C1, at the input [printf 'data\n' | sgpt --code "hello"]: standard
    input is a pipe, the completion is produced, and then the code-only
    prompt is made all the same; the pipe has been read to its end, so the
    prompt aborts and the process ends with status 1. *)
Lemma C1_code_prompt_on_pipe :
  isatty (stdin (pipe ["data"; ""])) = false /\
  out_trace (@main World sim
     (with_modes false false true (with_prompt "hello" default_args))
     (pipe ["data"; ""]))
  = [sys_stdin_read;
     call_check_get false false true;
     call_ChatHandler "temp" (get_role CODE);
     call_ChatHandler_handle ("data" +:+ nl +:+ nl +:+ nl +:+ "hello")
       (kwargs (with_modes false false true (with_prompt "hello" default_args))
               (Some "temp"));
     call_typer_prompt "[C]opy, [A]bort" ["c"; "a"] "a"] /\
  out_res (@main World sim
     (with_modes false false true (with_prompt "hello" default_args))
     (pipe ["data"; ""]))
  = Raise Abort /\
  @entry_point World sim
     (with_modes false false true (with_prompt "hello" default_args))
     (pipe ["data"; ""])
  = Some 1.
Proof. repeat split. Qed.

(** ** What the action machines leave alone *)

Section Kept.
Context {W : Type} `{Collaborators W}.
Variable R : W -> W -> Prop.
Hypothesis R_refl : forall w, R w w.
Hypothesis R_trans : forall w1 w2 w3, R w1 w2 -> R w2 w3 -> R w1 w3.
Hypothesis cfg_get_kept : forall k w, R w (snd (cfg_get k w)).
Hypothesis run_command_kept : forall t w, R w (snd (run_command t w)).
Hypothesis copy_kept : forall t w, R w (snd (copy_to_clipboard t w)).
Hypothesis get_role_kept : forall w, R w (snd (DESCRIBE_SHELL_get_role w)).
Hypothesis init_kept : forall rc w, R w (snd (DefaultHandler_init rc w)).
Hypothesis handle_kept :
  forall rc t kw w, R w (snd (DefaultHandler_handle rc t kw w)).
Local Open Scope prog_scope.

Lemma bind_kept {A B} (m : M W A) (k : A -> M W B) (st : State W) :
  R (world st) (world (out_st (m st))) ->
  (forall x st', R (world st') (world (out_st (k x st')))) ->
  R (world st) (world (out_st (bind m k st))).
Proof.
  intros Hm Hk. unfold bind.
  destruct (out_res (m st)); cbn; auto.
  eapply R_trans; [exact Hm | apply Hk].
Qed.

Lemma call_kept {A} c (f : W -> Ext A * W) (st : State W) :
  (forall w, R w (snd (f w))) ->
  R (world st) (world (out_st (call c f st))).
Proof.
  intros Hf. unfold call. specialize (Hf (world st)).
  destruct (f (world st)) as [r w]. exact Hf.
Qed.

Lemma typer_prompt_kept text choices default (st : State W) :
  R (world st) (world (out_st (typer_prompt text choices default st))).
Proof. rewrite typer_prompt_world. apply R_refl. Qed.

Lemma copy_action_kept fc (st : State W) :
  R (world st) (world (out_st (copy_action fc st))).
Proof.
  unfold copy_action. apply bind_kept.
  - destruct fc; apply R_refl.
  - intros text st'. apply bind_kept; [apply call_kept, copy_kept|].
    intros; apply R_refl.
Qed.

Lemma code_block_kept a fc (st : State W) :
  R (world st) (world (out_st (code_block a fc st))).
Proof.
  unfold code_block. destruct (code a); [|apply R_refl].
  apply bind_kept; [apply typer_prompt_kept|]. intros option st'.
  destruct (py_in_str option "c"); [apply copy_action_kept | apply R_refl].
Qed.

Lemma shell_body_kept a fc option (st : State W) :
  R (world st) (world (out_st (shell_body a fc option st))).
Proof.
  unfold shell_body. apply bind_kept.
  - destruct (py_in_tuple option ["e"; "y"]); [|apply R_refl].
    apply bind_kept; [destruct fc; apply R_refl|].
    intros; apply call_kept, run_command_kept.
  - intros _ st'. destruct (py_in_str option "c").
    + apply bind_kept; [apply copy_action_kept | intros; apply R_refl].
    + destruct (String.eqb option "d"); [|apply R_refl].
      apply bind_kept; [apply call_kept, get_role_kept|]. intros rc st1.
      apply bind_kept; [apply call_kept, init_kept|]. intros _ st2.
      apply bind_kept; [destruct fc; apply R_refl|]. intros t st3.
      apply bind_kept; [apply call_kept, handle_kept|].
      intros; apply R_refl.
Qed.

Lemma while_shell_kept n a sp fc (st : State W) :
  R (world st) (world (out_st (while_shell n a sp fc st))).
Proof.
  revert st. induction n as [|n IH]; intros st; cbn [while_shell];
    destruct (shell a && negb sp)%bool; try apply R_refl.
  apply bind_kept.
  - unfold shell_prompt. apply bind_kept; [apply call_kept, cfg_get_kept|].
    intros; apply typer_prompt_kept.
  - intros option st1. apply bind_kept; [apply shell_body_kept|].
    intros [|] st2; [apply IH | apply R_refl].
Qed.

(** Lines 200-235 keep whatever the clipboard, the shell, the
    configuration and the Describe sub-completion keep. *)
Lemma actions_kept a sp fc (st : State W) :
  R (world st)
    (world (out_st (bind (code_block a fc)
                         (fun _ => shell_block a sp fc) st))).
Proof.
  apply bind_kept; [apply code_block_kept|].
  intros _ st'. apply while_shell_kept.
Qed.

End Kept.

(** ** The scratch conversation *)

Section Temp.
Local Open Scope prog_scope.

(** In the world of the specification the action machines leave the
    session store and the record of loaded transcripts as they are. *)
Lemma sim_actions_store a sp fc (st : State World) :
  store_kept (world st)
    (world (out_st (bind (@code_block World sim a fc)
                         (fun _ => @shell_block World sim a sp fc) st))).
Proof.
  apply (@actions_kept World sim store_kept).
  - split; reflexivity.
  - intros w1 w2 w3 [E1 E2] [E3 E4]. split; congruence.
  - intros; split; reflexivity.
  - intros; split; reflexivity.
  - intros; split; reflexivity.
  - intros; split; reflexivity.
  - intros; split; reflexivity.
  - intros rc t kw w. cbn. unfold sim_DefaultHandler_handle.
    destruct (remote w _ _ _ _); split; reflexivity.
Qed.


Lemma store_kept_refl w : store_kept w w.
Proof. split; reflexivity. Qed.

Lemma store_kept_trans w1 w2 w3 :
  store_kept w1 w2 -> store_kept w2 w3 -> store_kept w1 w3.
Proof. intros [E1 E2] [E3 E4]. split; congruence. Qed.

Lemma kept_fresh w1 w2 w3 :
  store_kept w1 w2 -> temp_fresh w2 w3 -> temp_fresh w1 w3.
Proof.
  intros [E1 E2] (E3 & E4 & E5). unfold temp_fresh. rewrite E3, E2.
  repeat split; [|exact E5].
  intros cid Hc. rewrite (E4 cid Hc), E1. reflexivity.
Qed.

Lemma fresh_kept w1 w2 w3 :
  temp_fresh w1 w2 -> store_kept w2 w3 -> temp_fresh w1 w3.
Proof.
  intros (E1 & E2 & E5) [E3 E4].
  unfold temp_fresh, store_read in *. rewrite E3, E4.
  repeat split; assumption.
Qed.

Lemma no_handle_existsb t :
  Forall (fun c => is_ChatHandler_handle c = false) t ->
  existsb is_ChatHandler_handle t = false.
Proof.
  induction 1 as [|c t Hc _ IH]; [reflexivity|]. cbn. rewrite Hc. exact IH.
Qed.

(** Sequencing a part that keeps the store and does not call the
    dispatcher with one that resets the scratch conversation exactly when
    it calls it, in either order. *)
Lemma quiet_then {A B} (m : M World A) (k : A -> M World B) st :
  Forall (fun c => is_ChatHandler_handle c = false) (out_trace (m st)) ->
  store_kept (world st) (world (out_st (m st))) ->
  (forall x st', reset_iff_handled (world st') (k x st')) ->
  reset_iff_handled (world st) (bind m k st).
Proof.
  intros Ht Hm Hk. apply no_handle_existsb in Ht.
  unfold reset_iff_handled, bind.
  destruct (out_res (m st)) as [x| |]; cbn [out_trace out_st];
    rewrite ?existsb_app, Ht; try exact Hm.
  cbn [orb]. clear Ht. specialize (Hk x (out_st (m st))).
  unfold reset_iff_handled in Hk.
  destruct (existsb _ (out_trace (k x _)));
    [eapply kept_fresh | eapply store_kept_trans]; eauto.
Qed.

Lemma then_quiet {A B} (m : M World A) (k : A -> M World B) st :
  reset_iff_handled (world st) (m st) ->
  (forall x st',
     Forall (fun c => is_ChatHandler_handle c = false) (out_trace (k x st')) /\
     store_kept (world st') (world (out_st (k x st')))) ->
  reset_iff_handled (world st) (bind m k st).
Proof.
  intros Hm Hk. unfold reset_iff_handled in *. unfold bind.
  destruct (out_res (m st)) as [x| |]; cbn [out_trace out_st]; auto.
  destruct (Hk x (out_st (m st))) as [Ht Hw]. apply no_handle_existsb in Ht.
  rewrite existsb_app, Ht, orb_false_r. clear Ht.
  destruct (existsb _ (out_trace (m st)));
    [eapply fresh_kept | eapply store_kept_trans]; eauto.
Qed.

Lemma sim_call_kept {A} c (f : World -> Ext A * World) (st : State World) :
  (forall w, snd (f w) = w) ->
  store_kept (world st) (world (out_st (call c f st))).
Proof.
  intros Hf. unfold call. specialize (Hf (world st)).
  destruct (f (world st)) as [r w]. cbn in *. subst. apply store_kept_refl.
Qed.

Lemma store_read_delete cid w : store_read cid (store_delete cid w) = [].
Proof.
  unfold store_read, store_delete, set_sessions. cbn [sessions].
  rewrite lookup_delete_eq. reflexivity.
Qed.

Lemma store_read_append cid m w :
  store_read cid (store_append cid m w) = store_read cid w ++ [m].
Proof.
  unfold store_append, set_sessions. unfold store_read at 1. cbn [sessions].
  rewrite lookup_insert_eq. reflexivity.
Qed.

Lemma store_read_log cid cid' t w :
  store_read cid (log_loaded cid' t w) = store_read cid w.
Proof. reflexivity. Qed.

Lemma sessions_append_other cid cid' m w :
  cid' <> cid ->
  sessions (store_append cid m w) !! cid' = sessions w !! cid'.
Proof.
  intros Hne. unfold store_append, set_sessions. cbn [sessions].
  apply lookup_insert_ne. congruence.
Qed.

Lemma sessions_delete_other cid cid' w :
  cid' <> cid ->
  sessions (store_delete cid w) !! cid' = sessions w !! cid'.
Proof.
  intros Hne. unfold store_delete, set_sessions. cbn [sessions].
  apply lookup_delete_ne. congruence.
Qed.

(** Lines 187-197 on the scratch conversation. *)
Lemma sim_chat_block_temp a rc p (st : State World) :
  chat_id a = "temp" ->
  reset_iff_handled (world st) (@chat_block World sim a rc p st).
Proof.
  intros Hid. unfold reset_iff_handled, chat_block. rewrite Hid.
  cbn [truthy_str String.eqb negb].
  destruct (negb (truthy p)); [apply store_kept_refl|].
  unfold bind, call, ret.
  cbn [ChatHandler_init ChatHandler_handle sim sim_collaborators sim_returns
       out_res out_st out_trace world stdin].
  unfold sim_ChatHandler_handle, complete. cbn [String.eqb Ascii.eqb Bool.eqb].
  rewrite store_read_delete. cbn [existsb app].
  destruct (remote _ _ _ _ _) as [result|];
    cbn [out_res out_st out_trace world stdin app existsb
         is_ChatHandler_handle orb].
  - split; [reflexivity|]. split.
    + intros cid Hc.
      rewrite !sessions_append_other by assumption.
      change (sessions (log_loaded "temp" [] (store_delete "temp" (world st))))
        with (sessions (store_delete "temp" (world st))).
      apply sessions_delete_other. assumption.
    + right. exists (py_or p ""), result.
      rewrite !store_read_append, store_read_log, store_read_delete.
      reflexivity.
  - split; [reflexivity|]. split.
    + intros cid Hc. apply (sessions_delete_other "temp" cid (world st) Hc).
    + left. rewrite store_read_log. apply store_read_delete.
Qed.

(** With a prompt, lines 187-197 call the dispatcher. *)
Lemma sim_chat_block_handles a rc p (st : State World) :
  chat_id a = "temp" -> truthy p = true ->
  existsb is_ChatHandler_handle
    (out_trace (@chat_block World sim a rc p st)) = true.
Proof.
  intros Hid Hp. unfold chat_block. rewrite Hid, Hp.
  cbn [truthy_str String.eqb negb].
  unfold bind, call, ret.
  cbn [ChatHandler_init ChatHandler_handle sim sim_collaborators sim_returns
       out_res out_st out_trace world stdin].
  destruct (sim_ChatHandler_handle _ _ _ _ _) as [[result|e] w];
    reflexivity.
Qed.

Lemma sim_role_class_quiet a (st : State World) :
  store_kept (world st) (world (out_st (@role_class World sim a st))).
Proof.
  unfold role_class. destruct (negb (truthy (role a)));
    apply sim_call_kept; intros w; cbn.
  - unfold sim_check_get. destruct (1 <? _); reflexivity.
  - unfold sim_SystemRole_get. destruct (builtin_role _); [reflexivity|].
    destruct (roles w !! _); reflexivity.
Qed.

(** Lines 159-235 on the scratch conversation: it is reset exactly when
    the dispatcher is called. *)
Lemma sim_after_usage_temp a sp p (st : State World) :
  chat_id a = "temp" ->
  repl a = false -> print_chat a = false -> delete_chat a = false ->
  reset_iff_handled (world st) (@after_usage World sim a sp p st).
Proof.
  intros Hid Hr Hp Hd. unfold after_usage.
  apply quiet_then.
  { unfold edit_prompt. destruct (editor a); [|constructor].
    apply bind_Forall; [apply call_Forall; reflexivity|].
    intros; constructor. }
  { unfold edit_prompt. destruct (editor a); [|apply store_kept_refl].
    apply (bind_kept store_kept store_kept_trans).
    - apply sim_call_kept. reflexivity.
    - intros; apply store_kept_refl. }
  intros p' st1. apply quiet_then.
  { rewrite role_class_trace. destruct (truthy (role a));
      repeat constructor. }
  { apply sim_role_class_quiet. }
  intros rc st2. apply quiet_then.
  { unfold repl_block. rewrite Hr. constructor. }
  { unfold repl_block. rewrite Hr. apply store_kept_refl. }
  intros _ st3. apply quiet_then.
  { unfold print_chat_block. rewrite Hp. constructor. }
  { unfold print_chat_block. rewrite Hp. apply store_kept_refl. }
  intros _ st4. apply quiet_then.
  { unfold delete_chat_block. rewrite Hd. constructor. }
  { unfold delete_chat_block. rewrite Hd. apply store_kept_refl. }
  intros _ st5. apply then_quiet.
  - apply sim_chat_block_temp. exact Hid.
  - intros fc st6. split; [|apply sim_actions_store].
    apply bind_Forall.
    + eapply Forall_impl; [apply code_block_calls|].
      intros c Hc. destruct c; try discriminate; reflexivity.
    + intros _ _. eapply Forall_impl; [apply shell_block_calls|].
      intros c Hc. destruct c; try discriminate; reflexivity.
Qed.

(** With a prompt that is not replaced in the editor and a role that
    resolves, lines 159-235 call the dispatcher. *)
Lemma sim_after_usage_handles a sp p rc (st : State World) :
  chat_id a = "temp" -> editor a = false -> truthy p = true ->
  repl a = false -> print_chat a = false -> delete_chat a = false ->
  out_res (@role_class World sim a st) = Ret rc ->
  existsb is_ChatHandler_handle
    (out_trace (@after_usage World sim a sp p st)) = true.
Proof.
  intros Hid He Hp Hr Hpc Hd Hrc.
  unfold after_usage, edit_prompt, repl_block, print_chat_block,
    delete_chat_block.
  rewrite He, Hr, Hpc, Hd.
  rewrite (bind_Ret (ret p) _ st p eq_refl).
  cbn [ret out_st out_trace after app].
  rewrite (bind_Ret _ _ _ rc Hrc). cbn [after out_trace].
  rewrite existsb_app. apply orb_true_iff. right.
  set (st1 := out_st _).
  rewrite (bind_Ret (ret tt) _ st1 tt eq_refl).
  cbn [ret out_st out_trace after app].
  rewrite (bind_Ret (ret tt) _ st1 tt eq_refl).
  cbn [ret out_st out_trace after app].
  rewrite (bind_Ret (ret tt) _ st1 tt eq_refl).
  cbn [ret out_st out_trace after app].
  pose proof (sim_chat_block_handles a rc p st1 Hid Hp) as Hh.
  unfold bind at 1.
  destruct (out_res (chat_block a rc p st1)); cbn [out_trace];
    rewrite ?existsb_app, Hh; reflexivity.
Qed.

Lemma role_class_world a (st st' : State World) :
  world st = world st' ->
  out_res (@role_class World sim a st) = out_res (@role_class World sim a st').
Proof.
  intros Hw. unfold role_class, call.
  destruct (negb (truthy (role a))); cbv beta; rewrite Hw;
    match goal with
    | |- context [let '(_, _) := ?f in _] => destruct f
    end; reflexivity.
Qed.

(** [main] on the scratch conversation, whatever the read of standard
    input does. *)
Lemma sim_main_temp read_error a (st : State World) :
  chat_id a = "temp" ->
  repl a = false -> print_chat a = false -> delete_chat a = false ->
  reset_iff_handled (world st) (@main World (sim_reading read_error) a st).
Proof.
  intros Hid Hr Hp Hd.
  assert (Hquiet : existsb is_ChatHandler_handle
                     (out_trace (@fold_stdin World (sim_reading read_error) a st))
                   = false).
  { rewrite fold_stdin_trace.
    destruct (negb (isatty (stdin st)) && negb (repl a))%bool; reflexivity. }
  unfold reset_iff_handled.
  destruct (@main_cases World (sim_reading read_error) a st)
    as [[e He]|(Hc & He & Hret)].
  { rewrite He. cbn [out_trace out_st]. rewrite Hquiet, fold_stdin_world.
    apply store_kept_refl. }
  rewrite main_after_usage by assumption. unfold after.
  cbn [out_trace out_st]. rewrite existsb_app, Hquiet. cbn [orb].
  rewrite <- (@fold_stdin_world World (sim_reading read_error) a st).
  apply (sim_after_usage_temp a); assumption.
Qed.

End Temp.

(** C8: take a run of [main] on the conversation ["temp"] without the
    REPL, print and delete flags, whatever reading standard input does.
    If the run reaches the dispatcher ([ChatHandler.handle] is called),
    the transcript the dispatcher loads for ["temp"] is empty whatever an
    earlier run had left there, and afterwards ["temp"] holds nothing (the
    remote call failed) or exactly the new user message and its answer,
    the other conversations being as they were.  If the run does not reach
    it, the session store is as it was.  The run does reach it whenever
    the flags do not conflict, the editor is not asked for, the read of
    standard input returns, the prompt is not empty (on a pipe it never
    is) and the role resolves. *)
Theorem C8_temp_reset (read_error : string -> option Exn)
  (a : Args) (st : State World) :
  chat_id a = "temp" ->
  repl a = false -> print_chat a = false -> delete_chat a = false ->
  (existsb is_ChatHandler_handle
     (out_trace (@main World (sim_reading read_error) a st)) = true ->
   temp_fresh (world st)
     (world (out_st (@main World (sim_reading read_error) a st)))) /\
  (existsb is_ChatHandler_handle
     (out_trace (@main World (sim_reading read_error) a st)) = false ->
   store_kept (world st)
     (world (out_st (@main World (sim_reading read_error) a st)))) /\
  (conflicting a = false -> editor a = false ->
   @read_returns World (sim_reading read_error) a st ->
   (isatty (stdin st) = true -> truthy (prompt a) = true) ->
   (exists rc, out_res (@role_class World sim a st) = Ret rc) ->
   existsb is_ChatHandler_handle
     (out_trace (@main World (sim_reading read_error) a st)) = true /\
   temp_fresh (world st)
     (world (out_st (@main World (sim_reading read_error) a st)))).
Proof.
  intros Hid Hr Hp Hd.
  pose proof (sim_main_temp read_error a st Hid Hr Hp Hd) as Hm.
  unfold reset_iff_handled in Hm.
  split; [intros E; rewrite E in Hm; exact Hm|].
  split; [intros E; rewrite E in Hm; exact Hm|].
  intros Hc He Hret Htty [rc Hrc].
  assert (Hh : existsb is_ChatHandler_handle
                 (out_trace (@main World (sim_reading read_error) a st))
               = true).
  { rewrite main_after_usage by (rewrite ?He; auto).
    unfold after. cbn [out_trace]. rewrite existsb_app.
    apply orb_true_iff. right.
    apply (sim_after_usage_handles a _ _ rc); try assumption.
    - rewrite Hr, andb_true_r.
      destruct (isatty (stdin st)); [apply Htty; reflexivity|].
      cbn [negb truthy]. apply folded_truthy.
    - rewrite <- Hrc. apply role_class_world.
      apply (@fold_stdin_world World (sim_reading read_error)). }
  split; [exact Hh|]. rewrite Hh in Hm. exact Hm.
Qed.

(** [sgpt "list files"] when an earlier run has left two messages in
    ["temp"]: the dispatcher is reached and ["temp"] is reset. *)
Lemma C8_witness :
  chat_id (with_prompt "list files" default_args) = "temp" /\
  repl (with_prompt "list files" default_args) = false /\
  print_chat (with_prompt "list files" default_args) = false /\
  delete_chat (with_prompt "list files" default_args) = false /\
  store_read "temp" sample_world
  = [mkMessage user "old question"; mkMessage assistant "old answer"] /\
  existsb is_ChatHandler_handle
    (out_trace (@main World sim (with_prompt "list files" default_args)
                  (terminal []))) = true /\
  temp_fresh sample_world
    (world (out_st (@main World sim (with_prompt "list files" default_args)
                      (terminal [])))).
Proof.
  repeat (split; [reflexivity|]).
  apply (proj1 (C8_temp_reset (fun _ => None)
                  (with_prompt "list files" default_args) (terminal [])
                  eq_refl eq_refl eq_refl eq_refl)).
  reflexivity.
Defined.

(** The same run, evaluated: the transcript loaded was empty and ["temp"]
    ends with the new exchange only. *)
Example temp_reset_sample :
  loaded (world (out_st (@main World sim (with_prompt "list files" default_args)
                           (terminal []))))
  = [("temp", [])] /\
  store_read "temp"
    (world (out_st (@main World sim (with_prompt "list files" default_args)
                      (terminal []))))
  = [mkMessage user "list files"; mkMessage assistant "ls -la"].
Proof. split; reflexivity. Qed.

(** ** The shape of a run, block by block *)

Section Shape.
Context {W : Type} `{Collaborators W}.
Local Open Scope prog_scope.

Lemma count_app f t1 t2 :
  count_calls f (t1 ++ t2) = (count_calls f t1 + count_calls f t2)%nat.
Proof. unfold count_calls. rewrite List.filter_app, length_app. reflexivity. Qed.

Lemma count_none f t :
  Forall (fun c => f c = false) t -> count_calls f t = 0%nat.
Proof.
  unfold count_calls. induction 1 as [|c t Hc _ IH]; [reflexivity|].
  cbn. rewrite Hc. exact IH.
Qed.

Lemma count_bind {A B} f (m : M W A) (k : A -> M W B) (st : State W) n1 n2 :
  (count_calls f (out_trace (m st)) <= n1)%nat ->
  (forall x, out_res (m st) = Ret x ->
     (count_calls f (out_trace (k x (out_st (m st)))) <= n2)%nat) ->
  (count_calls f (out_trace (bind m k st)) <= n1 + n2)%nat.
Proof.
  intros Hm Hk. unfold bind.
  destruct (out_res (m st)) as [x| |] eqn:E; cbn [out_trace]; try lia.
  rewrite count_app. specialize (Hk x eq_refl). lia.
Qed.

Lemma bind_never_Ret_l {A B} (m : M W A) (k : A -> M W B) (st : State W) :
  (forall x, out_res (m st) <> Ret x) ->
  forall y, out_res (bind m k st) <> Ret y.
Proof.
  intros Hm y. unfold bind.
  destruct (out_res (m st)) as [x| |] eqn:E; cbn; try discriminate.
  destruct (Hm x eq_refl).
Qed.

Lemma bind_never_Ret_r {A B} (m : M W A) (k : A -> M W B) (st : State W) :
  (forall x st' y, out_res (k x st') <> Ret y) ->
  forall y, out_res (bind m k st) <> Ret y.
Proof.
  intros Hk y. unfold bind.
  destruct (out_res (m st)) as [x| |] eqn:E; cbn; try discriminate.
  apply Hk.
Qed.

Lemma print_chat_block_Ret a (st : State W) x :
  out_res (print_chat_block a st) = Ret x -> print_chat a = false.
Proof.
  unfold print_chat_block. destruct (print_chat a); [|reflexivity].
  unfold bind, call, exit, raise.
  destruct (ChatHandler_show_messages_callback _ _) as [[|] ?]; discriminate.
Qed.

Lemma delete_chat_block_Ret a rc (st : State W) x :
  out_res (delete_chat_block a rc st) = Ret x -> delete_chat a = false.
Proof.
  unfold delete_chat_block. destruct (delete_chat a); [|reflexivity].
  unfold bind, call, exit, raise.
  destruct (ChatHandler_init _ _ _) as [[|] ?]; cbn; try discriminate.
  destruct (ChatHandler_delete_chat _ _ _ _) as [[|] ?]; discriminate.
Qed.

Lemma chat_block_Ret a rc p (st : State W) fc :
  out_res (chat_block a rc p st) = Ret fc ->
  (chat_id a = "" -> fc = None) /\
  (fc = None -> chat_id a = "").
Proof.
  unfold chat_block, truthy_str.
  destruct (String.eqb_spec (chat_id a) "") as [E|E]; cbn [negb].
  - intros Hr. cbn in Hr. split; congruence.
  - destruct (negb (truthy p)); [discriminate|].
    unfold bind, call, ret.
    destruct (ChatHandler_init _ _ _) as [[|] ?]; cbn; try discriminate.
    destruct (ChatHandler_handle _ _ _ _ _) as [[|] ?]; cbn; try discriminate.
    intros Hr. split; [contradiction | congruence].
Qed.

(** What each block of lines 159-235 can call, and under which options. *)
Lemma after_usage_shape (P : Call -> Prop) a sp p (st : State W) :
  (editor a = true -> P call_get_edited_prompt) ->
  P (if truthy (role a) then call_SystemRole_get (py_or (role a) "")
     else call_check_get (shell a) (describe_shell a) (code a)) ->
  (repl a = true -> forall rc p', (editor a = false -> p' = p) ->
     P (call_ReplHandler (chat_id a) rc) /\
     P (call_ReplHandler_handle p' (kwargs a (Some (chat_id a))))) ->
  (print_chat a = true -> P (call_show_messages_callback (chat_id a))) ->
  (print_chat a = false -> delete_chat a = true -> forall rc,
     P (call_ChatHandler (chat_id a) rc) /\ P (call_delete_chat (chat_id a))) ->
  (print_chat a = false -> delete_chat a = false -> chat_id a <> "" ->
   forall rc p', (editor a = false -> p' = p) -> truthy p' = true ->
     P (call_ChatHandler (chat_id a) rc) /\
     P (call_ChatHandler_handle (py_or p' "") (kwargs a (Some (chat_id a))))) ->
  (print_chat a = false -> delete_chat a = false -> code a = true ->
   forall fc st', (chat_id a = "" -> fc = None) ->
     Forall P (out_trace (code_block a fc st'))) ->
  (print_chat a = false -> delete_chat a = false -> shell a = true ->
   sp = false ->
   forall fc st', (chat_id a = "" -> fc = None) ->
     Forall P (out_trace (shell_block a sp fc st'))) ->
  Forall P (out_trace (after_usage a sp p st)).
Proof.
  intros Hedit Hrole Hrepl Hprint Hdelete Hchat Hcode Hshell.
  unfold after_usage.
  apply bind_Forall.
  { unfold edit_prompt. destruct (editor a); [|constructor].
    apply bind_Forall; [apply call_Forall; auto|]. intros; constructor. }
  intros p' Hp'.
  assert (Hed : editor a = false -> p' = p).
  { intros He. unfold edit_prompt in Hp'. rewrite He in Hp'.
    cbn in Hp'. congruence. }
  clear Hp'. set (st1 := out_st _). clearbody st1.
  apply bind_Forall.
  { rewrite role_class_trace. repeat constructor. exact Hrole. }
  intros rc _. set (st2 := out_st _). clearbody st2.
  apply bind_Forall.
  { unfold repl_block. destruct (repl a) eqn:Hr; [|constructor].
    destruct (Hrepl eq_refl rc p' Hed) as [H1 H2].
    apply bind_Forall; [apply call_Forall; exact H1|].
    intros _ _. apply call_Forall. exact H2. }
  intros _ _. set (st3 := out_st _). clearbody st3.
  apply bind_Forall.
  { unfold print_chat_block. destruct (print_chat a); [|constructor].
    apply bind_Forall; [apply call_Forall; auto|]. intros; constructor. }
  intros x Hpr. apply print_chat_block_Ret in Hpr. clear x.
  set (st4 := out_st _). clearbody st4.
  apply bind_Forall.
  { unfold delete_chat_block. destruct (delete_chat a) eqn:Hd; [|constructor].
    destruct (Hdelete Hpr eq_refl rc) as [H1 H2].
    apply bind_Forall; [apply call_Forall; exact H1|]. intros _ _.
    apply bind_Forall; [apply call_Forall; exact H2|]. intros; constructor. }
  intros x Hde. apply delete_chat_block_Ret in Hde. clear x.
  set (st5 := out_st _). clearbody st5.
  apply bind_Forall.
  { unfold chat_block, truthy_str.
    destruct (String.eqb_spec (chat_id a) "") as [E|E]; cbn [negb];
      [constructor|].
    destruct (truthy p') eqn:Htp; cbn [negb]; [|constructor].
    destruct (Hchat Hpr Hde E rc p' Hed Htp) as [H1 H2].
    apply bind_Forall; [apply call_Forall; exact H1|]. intros _ _.
    apply bind_Forall; [apply call_Forall; exact H2|]. intros; constructor. }
  intros fc Hfc. apply chat_block_Ret in Hfc as [Hfc _].
  set (st6 := out_st _). clearbody st6.
  apply bind_Forall.
  { destruct (code a) eqn:Hc; [apply Hcode; auto|].
    unfold code_block. rewrite Hc. constructor. }
  intros _ _. set (st7 := out_st _). clearbody st7.
  destruct (shell a && negb sp)%bool eqn:Hs.
  - apply andb_true_iff in Hs as [Hs1 Hs2]. apply negb_true_iff in Hs2.
    apply Hshell; auto.
  - rewrite shell_block_skipped by assumption. constructor.
Qed.

(** The calls of the action machines are made on [full_completion]. *)
Lemma copy_action_acts a fc (st : State W) :
  Forall (acts_on a fc) (out_trace (copy_action fc st)).
Proof.
  unfold copy_action, bind, call, read_local, print, ret, raise.
  destruct fc; run; repeat constructor.
Qed.

Lemma code_block_acts a fc (st : State W) :
  Forall (acts_on a fc) (out_trace (code_block a fc st)).
Proof.
  unfold code_block. destruct (code a); [|constructor].
  apply bind_Forall; [rewrite typer_prompt_trace; repeat constructor|].
  intros option _. destruct (py_in_str option "c");
    [apply copy_action_acts | constructor].
Qed.

Lemma shell_body_acts a fc option (st : State W) :
  Forall (acts_on a fc) (out_trace (shell_body a fc option st)).
Proof.
  unfold shell_body, copy_action, bind, call, read_local, print, ret, raise.
  destruct fc; run; repeat constructor.
Qed.

Lemma while_shell_acts n a sp fc (st : State W) :
  Forall (acts_on a fc) (out_trace (while_shell n a sp fc st)).
Proof.
  revert st. induction n as [|n IH]; intros st; cbn [while_shell];
    destruct (shell a && negb sp)%bool; try constructor.
  apply bind_Forall.
  { unfold shell_prompt, bind, call, typer_prompt. run; repeat constructor. }
  intros option _.
  apply bind_Forall; [apply shell_body_acts|]. intros [|] _.
  - apply IH.
  - constructor.
Qed.

Lemma shell_block_acts a sp fc (st : State W) :
  Forall (acts_on a fc) (out_trace (shell_block a sp fc st)).
Proof. apply while_shell_acts. Qed.

(** The blocks before the action machines make no call of theirs. *)
Lemma setup_quiet a p (st : State W) :
  Forall (fun c => is_action_call c = false)
    (out_trace (edit_prompt a p st)) /\
  Forall (fun c => is_action_call c = false)
    (out_trace (role_class a st)) /\
  (forall rc, Forall (fun c => is_action_call c = false)
                (out_trace (repl_block a rc p st))) /\
  Forall (fun c => is_action_call c = false)
    (out_trace (print_chat_block a st)) /\
  (forall rc, Forall (fun c => is_action_call c = false)
                (out_trace (delete_chat_block a rc st))) /\
  (forall rc, Forall (fun c => is_action_call c = false)
                (out_trace (chat_block a rc p st))).
Proof.
  repeat split; intros;
    unfold edit_prompt, role_class, repl_block, print_chat_block,
      delete_chat_block, chat_block, bind, call, ret, raise, exit;
    run; repeat constructor.
Qed.

(** One iteration of the loop prompts at most once, and runs at most one
    command, after which it does not continue. *)
Lemma shell_prompt_count (st : State W) :
  (count_calls is_prompt_call (out_trace (shell_prompt st)) <= 1)%nat /\
  count_calls is_run_command (out_trace (shell_prompt st)) = 0%nat.
Proof.
  unfold shell_prompt, bind, call, typer_prompt. run; split; cbn; lia.
Qed.

Lemma shell_body_count a fc option (st : State W) :
  count_calls is_prompt_call (out_trace (shell_body a fc option st)) = 0%nat /\
  (count_calls is_run_command (out_trace (shell_body a fc option st)) <= 1)%nat /\
  (out_res (shell_body a fc option st) = Ret Continue ->
   count_calls is_run_command (out_trace (shell_body a fc option st)) = 0%nat).
Proof.
  assert (Hd : py_in_tuple "d" ["e"; "y"] = false) by reflexivity.
  unfold shell_body, copy_action, bind, call, read_local, print, ret, raise.
  destruct fc; run; repeat split; cbn; try lia; try discriminate.
  all: intros _;
    match goal with
    | E : String.eqb ?o "d" = true |- _ => apply String.eqb_eq in E; subst o
    end; congruence.
Qed.

Lemma while_shell_count n a sp fc (st : State W) :
  (count_calls is_prompt_call (out_trace (while_shell n a sp fc st))
   <= S (lines_left (pending (stdin st))))%nat /\
  (count_calls is_run_command (out_trace (while_shell n a sp fc st)) <= 1)%nat.
Proof.
  revert st. induction n as [|n IH]; intros st; cbn [while_shell];
    destruct (shell a && negb sp)%bool; try (cbn; split; lia).
  destruct (shell_prompt_count st) as [Hp1 Hp2].
  unfold bind at 1 3.
  destruct (out_res (shell_prompt st)) as [option| |] eqn:Eo;
    cbn [out_trace]; try (split; lia).
  apply shell_prompt_lines in Eo.
  rewrite !count_app.
  destruct (shell_body_count a fc option (out_st (shell_prompt st)))
    as (Hb1 & Hb2 & Hb3).
  pose proof (shell_body_stdin a fc option (out_st (shell_prompt st))) as Hs.
  unfold bind.
  destruct (out_res (shell_body a fc option (out_st (shell_prompt st))))
    as [[|]| |] eqn:Eb; cbn [out_trace]; rewrite ?count_app;
    try (cbn; split; lia).
  specialize (Hb3 eq_refl).
  destruct (IH (out_st (shell_body a fc option (out_st (shell_prompt st)))))
    as [I1 I2].
  rewrite Hs in I1. split; lia.
Qed.

(** Sequencing respects pointwise equality of what follows. *)
Lemma bind_ext {A B} (m : M W A) (k k' : A -> M W B) (st : State W) :
  (forall x st', k x st' = k' x st') -> bind m k st = bind m k' st.
Proof.
  intros Hk. unfold bind. destruct (out_res (m st)); [|reflexivity..].
  rewrite Hk. reflexivity.
Qed.

(** Lines 159-235 never read the prompt argument itself, only the prompt
    that lines 145-148 and 159-160 hand on. *)
Lemma while_shell_set_prompt n o a sp fc (st : State W) :
  while_shell n (set_prompt o a) sp fc st = while_shell n a sp fc st.
Proof.
  revert st. induction n as [|n IH]; intros st; [reflexivity|].
  cbn [while_shell shell set_prompt].
  destruct (shell a && negb sp)%bool; [|reflexivity].
  apply bind_ext. intros option st1.
  change (shell_body (set_prompt o a) fc option) with (shell_body a fc option).
  apply bind_ext. intros [|] st2; [apply IH | reflexivity].
Qed.

Lemma after_usage_set_prompt o a sp p (st : State W) :
  after_usage (set_prompt o a) sp p st = after_usage a sp p st.
Proof.
  unfold after_usage.
  apply (bind_ext (edit_prompt a p)). intros p' st1.
  apply (bind_ext (role_class a)). intros rc st2.
  apply (bind_ext (repl_block a rc p')). intros _ st3.
  apply (bind_ext (print_chat_block a)). intros _ st4.
  apply (bind_ext (delete_chat_block a rc)). intros _ st5.
  apply (bind_ext (chat_block a rc p')). intros fc st6.
  apply (bind_ext (code_block a fc)). intros _ st7.
  apply while_shell_set_prompt.
Qed.

End Shape.

(** ** Further properties of [main] *)


(** The bound is reached: [sgpt --shell "list files"] answered [d] with no
    line end after it prompts twice for its one line. *)
Example two_prompts_sample :
  lines_left (pending (stdin (mkState (mkStdin true ["d"]) sample_world))) = 1%nat /\
  count_calls is_prompt_call
    (out_trace (@shell_block World sim
       (with_modes true false false (with_prompt "list files" default_args))
       false (Some "ls -la") (mkState (mkStdin true ["d"]) sample_world))) = 2%nat.
Proof. split; reflexivity. Qed.

(** X2: with [--print-chat], [main] never deletes a chat, never builds a
    [ChatHandler] or asks it for a completion and never reaches the action
    prompts, whatever the other options are; it does not return normally:
    it ends with [exit()] or with an exception of a collaborator. *)
Theorem X2_print_chat_only_shows {W : Type} `{Collaborators W}
  (a : Args) (st : State W) :
  print_chat a = true ->
  (forall y, out_res (main a st) <> Ret y) /\
  Forall (fun c => is_chat_call c = false /\ is_action_call c = false)
         (out_trace (main a st)).
Proof.
  intros Hp. split.
  - unfold main. apply bind_never_Ret_r. intros sp st1.
    apply bind_never_Ret_r. intros _ st2. unfold after_usage.
    apply bind_never_Ret_r. intros p st3.
    apply bind_never_Ret_r. intros rc st4.
    apply bind_never_Ret_r. intros _ st5.
    apply bind_never_Ret_l. intros x Hx.
    apply print_chat_block_Ret in Hx. congruence.
  - apply main_calls; [intros; split; reflexivity|].
    intros _ _ p st' _. apply after_usage_shape; intros;
      try congruence; repeat split; try reflexivity.
    destruct (truthy (role a)); reflexivity.
    destruct (truthy (role a)); reflexivity.
Qed.

(** [sgpt --print-chat --delete-chat]. *)
Lemma X2_witness :
  print_chat (mkArgs None "gpt-3.5-turbo" (1 # 10) (1 # 1) false false false
                false true "temp" false true true None) = true /\
  out_trace (@main World sim
    (mkArgs None "gpt-3.5-turbo" (1 # 10) (1 # 1) false false false
       false true "temp" false true true None) (terminal []))
  = [call_check_get false false false; call_show_messages_callback "temp"] /\
  Forall (fun c => is_chat_call c = false /\ is_action_call c = false)
    (out_trace (@main World sim
       (mkArgs None "gpt-3.5-turbo" (1 # 10) (1 # 1) false false false
          false true "temp" false true true None) (terminal []))).
Proof.
  split; [reflexivity|]. split; [reflexivity|].
  apply (@X2_print_chat_only_shows World sim
    (mkArgs None "gpt-3.5-turbo" (1 # 10) (1 # 1) false false false
       false true "temp" false true true None) (terminal [])).
  reflexivity.
Defined.

(** X3: with [--delete-chat], [main] never asks a [ChatHandler] for a
    completion and never reaches the action prompts, with or without a
    prompt; the only chat it can delete is the one named by [--chat-id];
    it does not return normally. *)
Theorem X3_delete_chat_only_deletes {W : Type} `{Collaborators W}
  (a : Args) (st : State W) :
  delete_chat a = true ->
  (forall y, out_res (main a st) <> Ret y) /\
  Forall (fun c =>
            match c with
            | call_ChatHandler_handle _ _ => False
            | call_delete_chat cid => cid = chat_id a
            | _ => is_action_call c = false
            end) (out_trace (main a st)).
Proof.
  intros Hd. split.
  - unfold main. apply bind_never_Ret_r. intros sp st1.
    apply bind_never_Ret_r. intros _ st2. unfold after_usage.
    apply bind_never_Ret_r. intros p st3.
    apply bind_never_Ret_r. intros rc st4.
    apply bind_never_Ret_r. intros _ st5.
    apply bind_never_Ret_r. intros _ st6.
    apply bind_never_Ret_l. intros x Hx.
    apply delete_chat_block_Ret in Hx. congruence.
  - apply main_calls; [reflexivity|].
    intros _ _ p st' _. apply after_usage_shape; intros;
      try congruence; repeat split; try reflexivity.
    destruct (truthy (role a)); reflexivity.
Qed.

(** [sgpt --delete-chat --chat-id notes "a prompt that is ignored"]. *)
Lemma X3_witness :
  delete_chat (mkArgs (Some "a prompt that is ignored") "gpt-3.5-turbo"
                 (1 # 10) (1 # 1) false false false false true "notes" false
                 false true None) = true /\
  out_trace (@main World sim
    (mkArgs (Some "a prompt that is ignored") "gpt-3.5-turbo"
       (1 # 10) (1 # 1) false false false false true "notes" false
       false true None) (terminal []))
  = [call_check_get false false false;
     call_ChatHandler "notes" (get_role DEFAULT);
     call_delete_chat "notes"] /\
  forall y,
    out_res (@main World sim
      (mkArgs (Some "a prompt that is ignored") "gpt-3.5-turbo"
         (1 # 10) (1 # 1) false false false false true "notes" false
         false true None) (terminal [])) <> Ret y.
Proof.
  split; [reflexivity|]. split; [reflexivity|].
  apply (@X3_delete_chat_only_deletes World sim
    (mkArgs (Some "a prompt that is ignored") "gpt-3.5-turbo"
       (1 # 10) (1 # 1) false false false false true "notes" false
       false true None) (terminal [])).
  reflexivity.
Defined.

(** X4: with [--editor], the prompt argument plays no part: the run of
    [main] is the same whatever prompt was given on the command line. *)
Theorem X4_editor_discards_argument {W : Type} `{Collaborators W}
  (a : Args) (o : option string) (st : State W) :
  editor a = true ->
  main (set_prompt o a) st = main a st.
Proof.
  intros He.
  assert (Hfold : out_st (fold_stdin (set_prompt o a) st)
                  = out_st (fold_stdin a st) /\
                  out_trace (fold_stdin (set_prompt o a) st)
                  = out_trace (fold_stdin a st)).
  { rewrite !fold_stdin_eq. cbn [repl set_prompt].
    destruct (negb (isatty (stdin st)) && negb (repl a))%bool;
      split; reflexivity. }
  destruct Hfold as [Hs Ht].
  destruct (fold_stdin_cases a st) as [Hr|[e Hraise]].
  2:{ assert (Hraise' : out_res (fold_stdin (set_prompt o a) st) = Raise e).
      { apply fold_stdin_raises in Hraise as (Hi & Hrepl & Herr).
        rewrite fold_stdin_eq. cbn [repl set_prompt]. rewrite Hi, Hrepl.
        cbn. rewrite Herr. reflexivity. }
      rewrite (main_read_raises _ st e Hraise'), (main_read_raises a st e Hraise).
      rewrite Hs, Ht. reflexivity. }
  assert (Hr' : read_returns (set_prompt o a) st) by exact Hr.
  destruct (conflicting a) eqn:Hc.
  { rewrite (main_conflict (set_prompt o a) st Hc Hr'),
      (main_conflict a st Hc Hr).
    rewrite Hs, Ht. reflexivity. }
  destruct (isatty (stdin st)) eqn:Hi.
  - rewrite (main_after_usage (set_prompt o a) st Hc)
      by (rewrite ?Hi; auto using andb_false_r).
    rewrite (main_after_usage a st Hc)
      by (rewrite ?Hi; auto using andb_false_r).
    rewrite Hs, Ht. f_equal. rewrite after_usage_set_prompt.
    cbn [repl prompt set_prompt].
    unfold after_usage, edit_prompt. rewrite He. reflexivity.
  - rewrite (main_editor_pipe (set_prompt o a) st Hc He Hi Hr'),
      (main_editor_pipe a st Hc He Hi Hr).
    rewrite Hs, Ht. reflexivity.
Qed.

(** [sgpt --editor "ignored"] against [sgpt --editor]. *)
Lemma X4_witness :
  editor (with_editor default_args) = true /\
  @main World sim (set_prompt (Some "ignored") (with_editor default_args))
    (terminal [])
  = @main World sim (with_editor default_args) (terminal []).
Proof.
  split; [reflexivity|].
  apply (@X4_editor_discards_argument World sim (with_editor default_args)
           (Some "ignored") (terminal [])).
  reflexivity.
Defined.

(** X5: with an empty [--chat-id] the branch of lines 187-197 is not
    taken, so [full_completion] is never assigned: in the whole run no
    completion is requested from a [ChatHandler] and nothing is copied, run
    or given to the describer.  The answers Execute (either spelling) and
    Copy then raise [UnboundLocalError] before any call; Describe raises it
    once the describe-shell role and its handler have been obtained; Abort
    ends the loop. *)
Theorem X5_unbound_completion {W : Type} `{Collaborators W}
  (a : Args) (st : State W) :
  chat_id a = "" ->
  Forall (fun c =>
            match c with
            | call_ChatHandler_handle _ _ => False
            | _ => uses_completion c = false
            end) (out_trace (main a st)) /\
  (forall (st' : State W) option, In option ["e"; "y"; "c"] ->
     shell_body a None option st'
     = mkOut (Raise (UnboundLocalError "full_completion")) st' []) /\
  (forall (st' : State W) rc w1 w2,
     DESCRIBE_SHELL_get_role (world st') = (Returns rc, w1) ->
     DefaultHandler_init rc w1 = (Returns tt, w2) ->
     shell_body a None "d" st'
     = mkOut (Raise (UnboundLocalError "full_completion"))
         (mkState (stdin st') w2)
         [call_DESCRIBE_SHELL_get_role; call_DefaultHandler rc]) /\
  (forall st' : State W, shell_body a None "a" st' = mkOut (Ret Break) st' []).
Proof.
  intros Hid. split; [|split; [|split]].
  - apply main_calls; [reflexivity|].
    intros _ _ p st' _. apply after_usage_shape.
    + reflexivity.
    + destruct (truthy (role a)); reflexivity.
    + intros; split; reflexivity.
    + reflexivity.
    + intros; split; reflexivity.
    + intros _ _ Hne. congruence.
    + intros _ _ _ fc st1 Hfc. rewrite (Hfc Hid).
      pose proof (code_block_acts a None st1) as Ha.
      pose proof (code_block_calls a None st1) as Hc.
      eapply Forall_impl; [apply (List.Forall_and Ha Hc)|].
      intros c [Hc1 Hc2]. destruct c; try discriminate; try reflexivity;
        cbn in Hc1; discriminate.
    + intros _ _ _ _ fc st1 Hfc. rewrite (Hfc Hid).
      pose proof (shell_block_acts a (negb (isatty (stdin st))) None st1) as Ha.
      pose proof (shell_block_calls a (negb (isatty (stdin st))) None st1) as Hc.
      eapply Forall_impl; [apply (List.Forall_and Ha Hc)|].
      intros c [Hc1 Hc2]. destruct c; try discriminate; try reflexivity;
        cbn in Hc1; try discriminate. destruct Hc1; discriminate.
  - intros st' option [<-|[<-|[<-|[]]]]; reflexivity.
  - intros st' rc w1 w2 H1 H2. unfold shell_body. cbn.
    unfold bind, call, read_local, raise. cbn. rewrite H1. cbn.
    rewrite H2. reflexivity.
  - intros st'. reflexivity.
Qed.

(** [sgpt --shell --chat-id "" "list files"], the user answers [e]. *)
Lemma X5_witness :
  chat_id (mkArgs (Some "list files") "gpt-3.5-turbo" (1 # 10) (1 # 1)
             true false false false true "" false false false None) = "" /\
  @main World sim
    (mkArgs (Some "list files") "gpt-3.5-turbo" (1 # 10) (1 # 1)
       true false false false true "" false false false None)
    (terminal ["e"])
  = mkOut (Raise (UnboundLocalError "full_completion"))
      (mkState (mkStdin true [""]) sample_world)
      [call_check_get true false false;
       call_cfg_get "DEFAULT_EXECUTE_SHELL_CMD";
       call_typer_prompt "[E]xecute, [C]opy, [D]escribe, [A]bort"
         ["e"; "d"; "a"; "y"; "c"] "a"] /\
  Forall (fun c =>
            match c with
            | call_ChatHandler_handle _ _ => False
            | _ => uses_completion c = false
            end)
    (out_trace (@main World sim
       (mkArgs (Some "list files") "gpt-3.5-turbo" (1 # 10) (1 # 1)
          true false false false true "" false false false None)
       (terminal ["e"]))).
Proof.
  split; [reflexivity|]. split; [reflexivity|].
  apply (@X5_unbound_completion World sim
    (mkArgs (Some "list files") "gpt-3.5-turbo" (1 # 10) (1 # 1)
       true false false false true "" false false false None)
    (terminal ["e"])).
  reflexivity.
Defined.

(** X6: when the user just presses Enter at the shell prompt, the command
    is run if the configuration value [DEFAULT_EXECUTE_SHELL_CMD] is
    exactly ["true"], and the loop ends with nothing run, copied or
    described for any other value. *)
Theorem X6_enter_at_shell_prompt {W : Type} `{Collaborators W}
  (a : Args) (text : string) (st : State W) (v : string) (w1 : W)
  (l : string) (rest : list string) :
  shell a = true ->
  pending (stdin st) = "" :: l :: rest ->
  cfg_get "DEFAULT_EXECUTE_SHELL_CMD" (world st) = (Returns v, w1) ->
  shell_block a false (Some text) st =
  if String.eqb v "true" then
    after [call_cfg_get "DEFAULT_EXECUTE_SHELL_CMD";
           call_typer_prompt "[E]xecute, [C]opy, [D]escribe, [A]bort"
             ["e"; "d"; "a"; "y"; "c"] "e"]
      (bind (call (call_run_command text) (run_command text))
            (fun _ => ret tt)
            (mkState (mkStdin (isatty (stdin st)) (l :: rest)) w1))
  else
    mkOut (Ret tt) (mkState (mkStdin (isatty (stdin st)) (l :: rest)) w1)
      [call_cfg_get "DEFAULT_EXECUTE_SHELL_CMD";
       call_typer_prompt "[E]xecute, [C]opy, [D]escribe, [A]bort"
         ["e"; "d"; "a"; "y"; "c"] "a"].
Proof.
  intros Hs Hp Hc.
  assert (Hprompt :
    shell_prompt st =
    mkOut (Ret (if String.eqb v "true" then "e" else "a"))
      (mkState (mkStdin (isatty (stdin st)) (l :: rest)) w1)
      [call_cfg_get "DEFAULT_EXECUTE_SHELL_CMD";
       call_typer_prompt "[E]xecute, [C]opy, [D]escribe, [A]bort"
         ["e"; "d"; "a"; "y"; "c"] (if String.eqb v "true" then "e" else "a")]).
  { unfold shell_prompt, bind, call. rewrite Hc.
    cbn [out_res out_st out_trace world stdin].
    unfold typer_prompt. cbn [out_res out_st out_trace world stdin pending].
    rewrite Hp. destruct (String.eqb v "true"); reflexivity. }
  rewrite shell_block_unroll by exact Hs.
  unfold bind at 1. rewrite Hprompt.
  set (st1 := mkState (mkStdin (isatty (stdin st)) (l :: rest)) w1).
  destruct (String.eqb v "true"); cbn [out_res out_st out_trace].
  - pose proof (shell_body_execute a text "e" st1 (or_introl eq_refl)) as Hb.
    unfold after, bind in *. rewrite Hb. unfold call, ret.
    cbn [out_res out_st out_trace world stdin].
    destruct (run_command text (world st1)) as [[[]|e] w2]; reflexivity.
  - unfold bind. rewrite shell_body_abort. reflexivity.
Qed.

(** [sgpt --shell "list files"] with the flag not set, the user presses
    Enter. *)
Lemma X6_witness :
  shell (with_modes true false false (with_prompt "list files" default_args))
  = true /\
  pending (stdin (terminal [""])) = "" :: "" :: [] /\
  @cfg_get World sim "DEFAULT_EXECUTE_SHELL_CMD" (world (terminal [""]))
  = (Returns "", sample_world) /\
  @shell_block World sim
    (with_modes true false false (with_prompt "list files" default_args))
    false (Some "ls -la") (terminal [""])
  = mkOut (Ret tt) (mkState (mkStdin true [""]) sample_world)
      [call_cfg_get "DEFAULT_EXECUTE_SHELL_CMD";
       call_typer_prompt "[E]xecute, [C]opy, [D]escribe, [A]bort"
         ["e"; "d"; "a"; "y"; "c"] "a"].
Proof.
  split; [reflexivity|]. split; [reflexivity|]. split; [reflexivity|].
  apply (@X6_enter_at_shell_prompt World sim
    (with_modes true false false (with_prompt "list files" default_args))
    "ls -la" (terminal [""]) "" sample_world "" []); reflexivity.
Defined.

Section Runs.
Context {W : Type} `{Collaborators W}.
Local Open Scope prog_scope.

Lemma run_is_action c : is_action_call c = false -> is_run_command c = false.
Proof. destruct c; cbn; congruence. Qed.

Lemma quiet_count t :
  Forall (fun c => is_action_call c = false) t ->
  (count_calls is_run_command t <= 0)%nat.
Proof.
  intros Ht. rewrite count_none; [lia|].
  eapply Forall_impl; [exact Ht|]. intros c. apply run_is_action.
Qed.

Lemma after_usage_runs a sp p (st : State W) :
  (count_calls is_run_command (out_trace (after_usage a sp p st)) <= 1)%nat.
Proof.
  unfold after_usage.
  apply (count_bind _ _ _ _ 0 1)%nat.
  { apply quiet_count, (setup_quiet a p st). }
  intros p' _. set (st1 := out_st _). clearbody st1.
  apply (count_bind _ _ _ _ 0 1)%nat.
  { apply quiet_count, (setup_quiet a p' st1). }
  intros rc _. set (st2 := out_st _). clearbody st2.
  apply (count_bind _ _ _ _ 0 1)%nat.
  { apply quiet_count, (setup_quiet a p' st2). }
  intros _ _. set (st3 := out_st _). clearbody st3.
  apply (count_bind _ _ _ _ 0 1)%nat.
  { apply quiet_count, (setup_quiet a p' st3). }
  intros _ _. set (st4 := out_st _). clearbody st4.
  apply (count_bind _ _ _ _ 0 1)%nat.
  { apply quiet_count, (setup_quiet a p' st4). }
  intros _ _. set (st5 := out_st _). clearbody st5.
  apply (count_bind _ _ _ _ 0 1)%nat.
  { apply quiet_count, (setup_quiet a p' st5). }
  intros fc _. set (st6 := out_st _). clearbody st6.
  apply (count_bind _ _ _ _ 0 1)%nat.
  { rewrite count_none; [lia|].
    eapply Forall_impl; [apply code_block_calls|].
    intros c Hc. destruct c; try discriminate; reflexivity. }
  intros _ _. apply while_shell_count.
Qed.

Lemma main_runs a (st : State W) :
  (count_calls is_run_command (out_trace (main a st)) <= 1)%nat.
Proof.
  assert (Hfold : count_calls is_run_command (out_trace (fold_stdin a st))
                  = 0%nat).
  { rewrite fold_stdin_trace.
    destruct (negb (isatty (stdin st)) && negb (repl a))%bool; reflexivity. }
  destruct (main_cases a st) as [[e He]|(Hc & He & Hr)].
  { rewrite He. cbn [out_trace]. lia. }
  rewrite main_after_usage by assumption. unfold after. cbn [out_trace].
  rewrite count_app, Hfold. apply after_usage_runs.
Qed.

End Runs.

(** X7: whatever the action machines copy, run or send for description is
    the text held in [full_completion], and a description is requested
    with the options of the command line and no chat id; in a whole run of
    [main] at most one command is run, and none at all without [--shell] or
    with a piped standard input. *)
Theorem X7_actions_on_completion {W : Type} `{Collaborators W}
  (a : Args) (st : State W) :
  (forall sp fc (st' : State W),
     Forall (acts_on a fc) (out_trace (code_block a fc st')) /\
     Forall (acts_on a fc) (out_trace (shell_block a sp fc st'))) /\
  (count_calls is_run_command (out_trace (main a st)) <= 1)%nat /\
  (shell a = false \/ isatty (stdin st) = false ->
   count_calls is_run_command (out_trace (main a st)) = 0%nat).
Proof.
  split; [|split].
  - intros sp fc st'. split; [apply code_block_acts | apply shell_block_acts].
  - apply main_runs.
  - intros Hoff. apply count_none.
    apply main_calls; [reflexivity|].
    intros _ _ p st' _. apply after_usage_shape; intros;
      try reflexivity; try (split; reflexivity).
    + destruct (truthy (role a)); reflexivity.
    + eapply Forall_impl; [apply code_block_calls|].
      intros c Hc. destruct c; try discriminate; reflexivity.
    + destruct Hoff as [Hoff|Hoff]; [congruence|].
      rewrite Hoff in *. discriminate.
Qed.

(** [sgpt "list files"]: no [--shell], so nothing is run. *)
Lemma X7_witness :
  (shell (with_prompt "list files" default_args) = false \/
   isatty (stdin (terminal ["e"])) = false) /\
  count_calls is_run_command
    (out_trace (@main World sim (with_prompt "list files" default_args)
                  (terminal ["e"]))) = 0%nat.
Proof.
  split; [left; reflexivity|].
  apply (@X7_actions_on_completion World sim
           (with_prompt "list files" default_args) (terminal ["e"])).
  left. reflexivity.
Defined.

Section Heads.
Context {W : Type} `{Collaborators W}.
Local Open Scope prog_scope.

Lemma bind_head {A B} (m : M W A) (k : A -> M W B) (st : State W) c r :
  out_trace (m st) = c :: r ->
  exists rest, out_trace (bind m k st) = c :: rest.
Proof.
  intros Hm. unfold bind.
  destruct (out_res (m st)); cbn [out_trace]; rewrite Hm; cbn; eauto.
Qed.

Lemma call_trace {A} c (f : W -> Ext A * W) (st : State W) :
  out_trace (call c f st) = [c].
Proof. unfold call. destruct (f (world st)). reflexivity. Qed.

Lemma after_after {A} t1 t2 (o : Out W A) :
  after t1 (after t2 o) = after (t1 ++ t2) o.
Proof. unfold after. cbn. rewrite app_assoc. reflexivity. Qed.

Lemma py_in_str_c x : py_in_str x "c" = true <-> x = "" \/ x = "c".
Proof.
  destruct x as [|ch x]; [cbn; tauto|].
  cbn. destruct (ascii_dec ch "c") as [->|Hne].
  - destruct x; cbn; split; auto; try discriminate.
    intros [E|E]; discriminate.
  - cbn. split; [discriminate|]. intros [E|E]; [discriminate|].
    inversion E. contradiction.
Qed.

End Heads.

(** X8: with a piped standard input that [sys.stdin.read()] returns and
    no REPL, [main] never takes the missing-prompt exit of lines 188-189,
    even when nothing was piped and no prompt argument was given: once the
    role is resolved, the [ChatHandler] for [--chat-id] is built. *)
Theorem X8_piped_prompt_never_missing {W : Type} `{Collaborators W}
  (a : Args) (st : State W) (rc : SystemRole) :
  isatty (stdin st) = false -> repl a = false ->
  sys_stdin_read_error (stdin_text (stdin st)) = None ->
  conflicting a = false -> editor a = false ->
  print_chat a = false -> delete_chat a = false -> chat_id a <> "" ->
  out_res (role_class a (drained st)) = Ret rc ->
  exists rest,
    out_trace (main a st)
    = sys_stdin_read ::
      out_trace (role_class a (drained st)) ++
      call_ChatHandler (chat_id a) rc :: rest.
Proof.
  intros Ht Hr Hread Hc He Hp Hd Hid Hrole.
  rewrite main_after_usage
    by (rewrite ?He; auto; right; right; exact Hread).
  rewrite fold_stdin_eq, Ht, Hr. cbn [negb andb out_st out_trace after app].
  unfold after_usage, edit_prompt. rewrite He.
  rewrite (bind_Ret (ret _) _ _ _ eq_refl).
  cbn [after out_trace ret out_st app].
  rewrite (bind_Ret (role_class a) _ _ rc Hrole). cbn [after out_trace].
  unfold repl_block, print_chat_block, delete_chat_block. rewrite Hr, Hp, Hd.
  rewrite (bind_Ret (ret tt) _ _ _ eq_refl).
  cbn [after out_trace ret out_st app].
  rewrite (bind_Ret (ret tt) _ _ _ eq_refl).
  cbn [after out_trace ret out_st app].
  rewrite (bind_Ret (ret tt) _ _ _ eq_refl).
  cbn [after out_trace ret out_st app].
  match goal with
  | |- context [out_trace (bind (chat_block a rc ?p) ?k ?s)] =>
      destruct (bind_head (chat_block a rc p) k s
                  (call_ChatHandler (chat_id a) rc)
                  (List.tl (out_trace (chat_block a rc p s))))
        as [rest Hrest]
  end.
  - unfold chat_block, truthy_str.
    destruct (String.eqb_spec (chat_id a) ""); [contradiction|].
    cbn [negb truthy]. rewrite folded_truthy. cbn [negb].
    unfold bind. rewrite !call_trace.
    destruct (out_res (call _ _ _)); reflexivity.
  - rewrite Hrest. eauto.
Qed.

(** [printf '' | sgpt]: nothing piped, no prompt. *)
Lemma X8_witness :
  isatty (stdin (pipe [])) = false /\
  repl default_args = false /\
  @sys_stdin_read_error World sim (stdin_text (stdin (pipe []))) = None /\
  conflicting default_args = false /\
  editor default_args = false /\ print_chat default_args = false /\
  delete_chat default_args = false /\ chat_id default_args <> "" /\
  out_res (@role_class World sim default_args (drained (pipe [])))
  = Ret (get_role DEFAULT) /\
  exists rest,
    out_trace (@main World sim default_args (pipe []))
    = sys_stdin_read ::
      out_trace (@role_class World sim default_args (drained (pipe []))) ++
      call_ChatHandler "temp" (get_role DEFAULT) :: rest.
Proof.
  repeat (split; [first [reflexivity | discriminate]|]).
  apply (@X8_piped_prompt_never_missing World sim default_args (pipe [])
           (get_role DEFAULT)); first [reflexivity | discriminate].
Defined.

(** X9: [main] has no exit after the REPL: if [ReplHandler.handle] ever
    returns, the run goes on with lines 179-235 on the same prompt, so a
    session started without a prompt then ends with the missing-parameter
    usage error. *)
Theorem X9_repl_falls_through {W : Type} `{Collaborators W}
  (a : Args) (st : State W) (rc : SystemRole) (w2 w3 : W) :
  conflicting a = false -> editor a = false -> repl a = true ->
  print_chat a = false -> delete_chat a = false ->
  out_res (role_class a st) = Ret rc ->
  ReplHandler_init (chat_id a) rc (world (out_st (role_class a st)))
  = (Returns tt, w2) ->
  ReplHandler_handle (chat_id a) rc (prompt a) (kwargs a (Some (chat_id a))) w2
  = (Returns tt, w3) ->
  main a st =
  after (out_trace (role_class a st) ++
         [call_ReplHandler (chat_id a) rc;
          call_ReplHandler_handle (prompt a) (kwargs a (Some (chat_id a)))])
    (bind (chat_block a rc (prompt a))
       (fun fc => bind (code_block a fc)
          (fun _ => shell_block a (negb (isatty (stdin st))) fc))
       (mkState (stdin (out_st (role_class a st))) w3)) /\
  (prompt a = None \/ prompt a = Some "" -> chat_id a <> "" ->
   out_res (main a st) = Raise (MissingParameter "PROMPT" "string")).
Proof.
  intros Hc He Hr Hp Hd Hrole H2 H3.
  assert (Hmain :
    main a st =
    after (out_trace (role_class a st) ++
           [call_ReplHandler (chat_id a) rc;
            call_ReplHandler_handle (prompt a) (kwargs a (Some (chat_id a)))])
      (bind (chat_block a rc (prompt a))
         (fun fc => bind (code_block a fc)
            (fun _ => shell_block a (negb (isatty (stdin st))) fc))
         (mkState (stdin (out_st (role_class a st))) w3))).
  { rewrite main_after_usage
      by (rewrite ?He; auto; right; left; exact Hr).
    rewrite fold_stdin_eq, Hr, andb_false_r.
    cbn [out_st out_trace after app].
    unfold after_usage, edit_prompt. rewrite He.
    rewrite (bind_Ret (ret _) _ _ _ eq_refl).
    cbn [out_trace ret out_st].
    rewrite (bind_Ret (role_class a) _ _ rc Hrole).
    assert (Hrepl :
      repl_block a rc (prompt a) (out_st (role_class a st)) =
      mkOut (Ret tt) (mkState (stdin (out_st (role_class a st))) w3)
        [call_ReplHandler (chat_id a) rc;
         call_ReplHandler_handle (prompt a) (kwargs a (Some (chat_id a)))]).
    { unfold repl_block. rewrite Hr. unfold bind, call. rewrite H2.
      cbn [out_res out_st out_trace world stdin]. rewrite H3. reflexivity. }
    rewrite (bind_Ret (repl_block a rc (prompt a)) _ _ tt)
      by (rewrite Hrepl; reflexivity).
    rewrite Hrepl. cbn [out_st out_trace].
    unfold print_chat_block, delete_chat_block. rewrite Hp, Hd.
    rewrite (bind_Ret (ret tt) _ _ _ eq_refl).
    cbn [out_trace ret out_st].
    rewrite (bind_Ret (ret tt) _ _ _ eq_refl).
    cbn [out_trace ret out_st].
    rewrite !after_after. rewrite !app_nil_r. cbn [app]. reflexivity. }
  split; [exact Hmain|].
  intros Hmiss Hid. rewrite Hmain. unfold after. cbn [out_res].
  unfold chat_block, truthy_str.
  destruct (String.eqb_spec (chat_id a) ""); [contradiction|].
  cbn [negb]. destruct Hmiss as [-> | ->]; reflexivity.
Qed.

(** [sgpt --interactive] without a prompt, with a REPL that returns at
    once. *)
Lemma X9_witness :
  conflicting (with_repl default_args) = false /\
  editor (with_repl default_args) = false /\
  repl (with_repl default_args) = true /\
  print_chat (with_repl default_args) = false /\
  delete_chat (with_repl default_args) = false /\
  out_res (@role_class World sim (with_repl default_args) (terminal []))
  = Ret (get_role DEFAULT) /\
  out_res (@main World (sim_collaborators (fun _ _ _ _ w => (Returns tt, w)))
             (with_repl default_args) (terminal []))
  = Raise (MissingParameter "PROMPT" "string").
Proof.
  repeat (split; [reflexivity|]).
  apply (@X9_repl_falls_through World
           (sim_collaborators (fun _ _ _ _ w => (Returns tt, w)))
           (with_repl default_args) (terminal []) (get_role DEFAULT)
           sample_world sample_world);
    first [reflexivity | left; reflexivity | discriminate].
Defined.

(** X10: the test [option in ("c")] of lines 208 and 223 is a substring
    test: it holds for ["c"] and for the empty string only; both prompts
    only return one of their choices, never the empty string, so on their
    answers the test is the comparison with ["c"]. *)
Theorem X10_copy_test {W : Type} `{Collaborators W} :
  (forall x, py_in_str x "c" = true <-> x = "" \/ x = "c") /\
  (forall (st : State W) option,
     out_res (shell_prompt st) = Ret option ->
     py_in_str option "c" = String.eqb option "c") /\
  (forall (st : State W) option,
     out_res (typer_prompt "[C]opy, [A]bort" ["c"; "a"] "a" st) = Ret option ->
     py_in_str option "c" = String.eqb option "c").
Proof.
  split; [apply py_in_str_c|]. split.
  - intros st option Ho. apply shell_prompt_In in Ho.
    destruct Ho as [<-|[<-|[<-|[<-|[<-|[]]]]]]; reflexivity.
  - intros st option Ho. apply typer_prompt_In in Ho.
    destruct Ho as [<-|[<-|[]]]; reflexivity.
Qed.

(** The user answers [C] at the code prompt. *)
Lemma X10_witness :
  out_res (@typer_prompt World "[C]opy, [A]bort" ["c"; "a"] "a"
             (terminal ["C"])) = Ret "c" /\
  py_in_str "c" "c" = String.eqb "c" "c".
Proof.
  split; [reflexivity|].
  apply (proj2 (proj2 (@X10_copy_test World sim)) (terminal ["C"]) "c").
  reflexivity.
Defined.

(** X11: every call that [main] makes carries the options of the command
    line as they were given: the role is looked up under the name of
    [--role] or derived from the three mode flags, every handler is built
    for and every chat shown or deleted under [--chat-id], and every
    completion request gets the model, the temperature, the top
    probability and the cache flag of the command line, with the chat id
    for the chat and REPL handlers and without one for a description. *)
Theorem X11_options_forwarded {W : Type} `{Collaborators W}
  (a : Args) (st : State W) :
  Forall (forwards a) (out_trace (main a st)).
Proof.
  apply main_calls; [exact (fun _ _ => I)|].
  intros _ _ p st' _. apply after_usage_shape.
  - exact (fun _ => I).
  - destruct (role a) as [s|] eqn:Er; cbn [truthy].
    + destruct (truthy_str s) eqn:Es; cbn.
      * rewrite Er, Es. reflexivity.
      * auto.
    + cbn. auto.
  - intros; split; cbn; auto.
  - reflexivity.
  - intros; split; reflexivity.
  - intros; split; cbn; auto.
  - intros _ _ _ fc st1 _.
    eapply Forall_impl; [apply code_block_calls|].
    intros c Hc. destruct c; try discriminate; exact I.
  - intros _ _ _ _ fc st1 _.
    pose proof (shell_block_acts a (negb (isatty (stdin st))) fc st1) as Ha.
    pose proof (shell_block_calls a (negb (isatty (stdin st))) fc st1) as Hc.
    eapply Forall_impl; [apply (List.Forall_and Ha Hc)|].
    intros c [Hc1 Hc2]. destruct c; try discriminate; try exact I.
    cbn in Hc1. destruct Hc1 as [_ ->]. cbn. auto.
Qed.

(** X12: when the user just presses Enter at the code prompt, nothing is
    copied: the default answer is Abort. *)
Theorem X12_enter_at_code_prompt {W : Type} `{Collaborators W}
  (a : Args) (fc : option string) (st : State W)
  (l : string) (rest : list string) :
  code a = true ->
  pending (stdin st) = "" :: l :: rest ->
  code_block a fc st =
  mkOut (Ret tt)
    (mkState (mkStdin (isatty (stdin st)) (l :: rest)) (world st))
    [call_typer_prompt "[C]opy, [A]bort" ["c"; "a"] "a"].
Proof.
  intros Hc Hp. unfold code_block. rewrite Hc.
  unfold bind, typer_prompt. rewrite Hp. reflexivity.
Qed.

(** [sgpt --code "hello"], the user presses Enter. *)
Lemma X12_witness :
  code (with_modes false false true (with_prompt "hello" default_args)) = true /\
  pending (stdin (terminal [""])) = "" :: "" :: [] /\
  @code_block World sim
    (with_modes false false true (with_prompt "hello" default_args))
    (Some "ls -la") (terminal [""])
  = mkOut (Ret tt) (mkState (mkStdin true [""]) sample_world)
      [call_typer_prompt "[C]opy, [A]bort" ["c"; "a"] "a"].
Proof.
  split; [reflexivity|]. split; [reflexivity|].
  apply (@X12_enter_at_code_prompt World sim
    (with_modes false false true (with_prompt "hello" default_args))
    (Some "ls -la") (terminal [""]) "" []); reflexivity.
Defined.


